(** * SharePoint File Analyzer: the file-processing pipeline

    A shallow embedding of the per-file pipeline of the analyzer
    ([main.process_files], [SharePointClient.get_file_content_as_text],
    [AIAnalyzer.analyze_document], [AIAnalyzer.analyze_file_metadata],
    [ExcelGenerator.create_report]) and the properties of it that the
    specification states.

    Conventions of the embedding.
    - A Python [str] is a [string]; one [ascii] stands for one code point
      (the Latin-1 range).  A Python [bytes] is a [list byte].
    - A Python call that may raise returns a [result]; [try/except Exception]
      is [try_catch].  Only subclasses of [Exception] are modelled.
    - The SharePoint site and the text-generation service are outside the
      program: they are operations of the class [Externals] over an abstract
      [World], which every call may change.  Every call is also appended to
      the list [calls] of the state, so that what was sent can be observed.
    - [print] and the [tqdm] progress bar only write to the terminal and are
      left out. *)

From Stdlib Require Import ZArith QArith Qabs Ascii String Strings.Byte DecimalString Lia.
From stdpp Require Import base tactics option list strings gmap.

Set Warnings "-register-all".
Set Default Proof Using "Type".

(* ================================================================== *)
(** * Python strings *)

Module PyStr.

Definition newline : string := String "010"%char "".
Definition dquote : string := String "034"%char "".

(** [str.isspace] on one code point below 256: the ASCII white space and
    separators, NEL and the no-break space. *)
Definition isspace (c : ascii) : bool :=
  bool_decide (nat_of_ascii c ∈ [9; 10; 11; 12; 13; 28; 29; 30; 31; 32; 133; 160]).

Definition is_empty (s : string) : bool :=
  match s with EmptyString => true | String _ _ => false end.

Fixpoint lstrip (s : string) : string :=
  match s with
  | EmptyString => EmptyString
  | String c s' => if isspace c then lstrip s' else s
  end.

Fixpoint rstrip (s : string) : string :=
  match s with
  | EmptyString => EmptyString
  | String c s' =>
      let r := rstrip s' in
      if is_empty r && isspace c then EmptyString else String c r
  end.

(** [s.strip()] *)
Definition strip (s : string) : string := rstrip (lstrip s).

(** [s.startswith(p)] *)
Definition startswith (s p : string) : bool := String.prefix p s.

Fixpoint take (n : nat) (s : string) : string :=
  match n, s with
  | S n', String c s' => String c (take n' s')
  | _, _ => EmptyString
  end.

Fixpoint drop (n : nat) (s : string) : string :=
  match n, s with
  | S n', String _ s' => drop n' s'
  | _, _ => s
  end.

Definition len (s : string) : Z := Z.of_nat (String.length s).

(** A slice bound as Python clamps it: a negative bound counts from the
    end, and the result is kept within [0, len s]. *)
Definition clamp (s : string) (i : Z) : nat :=
  Z.to_nat (if (i <? 0)%Z then Z.max (len s + i) 0 else Z.min i (len s)).

(** [s[:stop]] *)
Definition slice_to (s : string) (stop : Z) : string := take (clamp s stop) s.

(** [s[start:]] *)
Definition slice_from (s : string) (start : Z) : string := drop (clamp s start) s.

(** [sep.join(parts)] *)
Fixpoint join (sep : string) (parts : list string) : string :=
  match parts with
  | [] => EmptyString
  | [p] => p
  | p :: rest => p +:+ sep +:+ join sep rest
  end.

(** [s.split(sep)] for a non-empty [sep]: the pieces between the
    occurrences of [sep], found from left to right without overlap.
    [skip] counts the characters of a separator still to be passed over,
    [cur] is the current piece, reversed. *)
Fixpoint split_go (sep : string) (skip : nat) (cur : string) (s : string)
  : list string :=
  match s with
  | EmptyString => [String.rev cur]
  | String c s' =>
      match skip with
      | S k => split_go sep k cur s'
      | O =>
          if String.prefix sep s
          then String.rev cur :: split_go sep (String.length sep - 1) "" s'
          else split_go sep 0 (String c cur) s'
      end
  end.

Definition split (s sep : string) : list string := split_go sep 0 "" s.

(** [sub in s] as a proposition. *)
Definition contains (s sub : string) : Prop :=
  ∃ before after : string, s = before +:+ sub +:+ after.

End PyStr.

(* ================================================================== *)
(** * Python values, exceptions and results *)

(** An exception: its class and the text [str(e)] gives. *)
Record exn := Exception { exn_class : string; exn_message : string }.

Definition str_of_exn (e : exn) : string := exn_message e.

Definition AttributeError (type_name attribute : string) : exn :=
  Exception "AttributeError"
    ("'" +:+ type_name +:+ "' object has no attribute '" +:+ attribute +:+ "'").
Definition IndexError : exn := Exception "IndexError" "list index out of range".
Definition RuntimeError (message : string) : exn := Exception "RuntimeError" message.

Inductive result (A : Type) : Type :=
  | Ok (value : A)
  | Raise (e : exn).
Arguments Ok {A} value.
Arguments Raise {A} e.

(** Sequencing of calls that may raise: [x ← r; k] stops at the first
    exception. *)
Global Instance result_ret : MRet result := λ A, Ok.
Global Instance result_bind : MBind result := λ A B k r,
  match r with
  | Ok a => k a
  | Raise e => Raise e
  end.

(** The values [json.loads] can return. *)
Inductive pyobj : Type :=
  | PyNone
  | PyBool (b : bool)
  | PyInt (n : Z)
  | PyFloat (repr : string)
  | PyStr (s : string)
  | PyList (items : list pyobj)
  | PyDict (entries : gmap string pyobj).

Definition type_name (v : pyobj) : string :=
  match v with
  | PyNone => "NoneType"
  | PyBool _ => "bool"
  | PyInt _ => "int"
  | PyFloat _ => "float"
  | PyStr _ => "str"
  | PyList _ => "list"
  | PyDict _ => "dict"
  end.

(** [obj.get(key, default)]: only a [dict] has the method among the values
    [json.loads] returns. *)
Definition py_get (obj : pyobj) (key : string) (default : pyobj) : result pyobj :=
  match obj with
  | PyDict entries => Ok (from_option id default (entries !! key))
  | other => Raise (AttributeError (type_name other) "get")
  end.

(** [items[i]] on a list. *)
Definition py_index {A : Type} (items : list A) (i : nat) : result A :=
  match items !! i with
  | Some x => Ok x
  | None => Raise IndexError
  end.

Definition bytes : Type := list byte.

(* ================================================================== *)
(** * The outside world and the monad of effectful calls *)

(** One call to an external service. *)
Inductive call : Type :=
  | CallReadFile (site_url server_relative_url : string)
  | CallChatCompletion (model system_content user_content : string)
      (temperature : Q) (max_tokens : Z).

(** What lies outside the program.  [World] is whatever the remote services
    hold; the library functions are deterministic functions of their
    argument. *)
Class Externals (World : Type) : Type := {
  (** [ctx.web.get_file_by_server_relative_path(url).read()] followed by
      [ctx.execute_query()], on the site the context was made for *)
  sharepoint_read : string → string → World → result bytes * World;
  (** [client.chat.completions.create(model, messages, temperature,
      max_tokens)]: the [message.content] of every choice of the response *)
  chat_completions_create :
    string → string → string → Q → Z → World → result (list (option string)) * World;
  (** [content_bytes.decode('utf-8', errors='ignore')] *)
  decode_utf8_ignore : bytes → string;
  (** [[page.extract_text() for page in PdfReader(io.BytesIO(b)).pages]] *)
  pdf_page_texts : bytes → result (list string);
  (** [[p.text for p in Document(io.BytesIO(b)).paragraphs]] *)
  docx_paragraph_texts : bytes → result (list string);
  (** [json.loads] *)
  json_loads : string → result pyobj;
}.

Record state (World : Type) : Type := State {
  world : World;
  calls : list call;
}.
Arguments State {World} world calls.
Arguments world {World} s.
Arguments calls {World} s.

(** A computation that reads and changes the state and returns or raises.
    The state it leaves is kept when it raises. *)
Definition M (World A : Type) : Type := state World → result A * state World.

Section Monad.
Context {World : Type}.

Definition ret {A} (a : A) : M World A := λ st, (Ok a, st).
Definition raise {A} (e : exn) : M World A := λ st, (Raise e, st).
Definition lift {A} (r : result A) : M World A := λ st, (r, st).

Definition bind {A B} (m : M World A) (k : A → M World B) : M World B :=
  λ st, match m st with
        | (Ok a, st') => k a st'
        | (Raise e, st') => (Raise e, st')
        end.

(** [try: m  except Exception as e: handler e] *)
Definition try_catch {A} (m : M World A) (handler : exn → M World A) : M World A :=
  λ st, match m st with
        | (Ok a, st') => (Ok a, st')
        | (Raise e, st') => handler e st'
        end.

Context `{!Externals World}.

Definition do_sharepoint_read (site_url server_relative_url : string) : M World bytes :=
  λ st,
    let '(r, w) := sharepoint_read site_url server_relative_url (world st) in
    (r, State w (calls st ++ [CallReadFile site_url server_relative_url])).

Definition do_chat_completions_create
    (model system_content user_content : string) (temperature : Q) (max_tokens : Z)
  : M World (list (option string)) :=
  λ st,
    let '(r, w) :=
      chat_completions_create model system_content user_content
        temperature max_tokens (world st) in
    (r, State w (calls st ++
           [CallChatCompletion model system_content user_content
              temperature max_tokens])).
End Monad.

(** With these instances [x ← m; k] is [bind m (λ x, k)]. *)
Global Instance M_ret {World} : MRet (M World) := λ A, ret.
Global Instance M_bind {World} : MBind (M World) := λ A B k m, bind m k.

(* ================================================================== *)
(** * config.py *)

Module Config.

(** [Config.SUPPORTED_FILE_TYPES] *)
Definition SUPPORTED_FILE_TYPES : list string :=
  [".txt"; ".pdf"; ".docx"; ".doc";
   ".xlsx"; ".xls"; ".pptx"; ".ppt";
   ".md"; ".csv"; ".json"; ".xml"].

(** [int(os.getenv('MAX_FILE_SIZE_MB', '10'))] when the variable is unset *)
Definition DEFAULT_MAX_FILE_SIZE_MB : Z := 10.

End Config.

(** The settings read from the environment when [config] is imported. *)
Class Settings : Type := {
  MAX_FILE_SIZE_MB : Z;
}.

(* ================================================================== *)
(** * sharepoint_client.py *)

(** One entry of [SharePointClient.list_files]. *)
Record FileInfo : Type := {
  name : string;
  server_relative_url : string;
  size : Z;
  time_created : string;
  time_modified : string;
  extension : string;
}.

(** [ctx] is [None] until [connect] has made a context for [site_url]. *)
Record SharePointClient : Type := {
  site_url : string;
  ctx : option string;
}.

Section SharePointClient.
Context {World : Type} `{!Externals World}.

Definition download_file (self : SharePointClient) (url : string) : M World bytes :=
  match ctx self with
  | None => raise (RuntimeError "Not connected to SharePoint. Call connect() first.")
  | Some site =>
      try_catch (do_sharepoint_read site url)
        (λ e, (* the error is printed *) raise e)
  end.

Definition _extract_pdf_text (content_bytes : bytes) : string :=
  match pdf_page_texts content_bytes with
  | Ok text_parts => PyStr.join PyStr.newline text_parts
  | Raise e => "[Error extracting PDF text: " +:+ str_of_exn e +:+ "]"
  end.

Definition _extract_docx_text (content_bytes : bytes) : string :=
  match docx_paragraph_texts content_bytes with
  | Ok text_parts => PyStr.join PyStr.newline text_parts
  | Raise e => "[Error extracting DOCX text: " +:+ str_of_exn e +:+ "]"
  end.

Definition get_file_content_as_text (self : SharePointClient)
    (url file_extension : string) : M World string :=
  content_bytes ← download_file self url;
  if decide (file_extension = ".txt") then
    ret (decode_utf8_ignore content_bytes)
  else if decide (file_extension = ".pdf") then
    ret (_extract_pdf_text content_bytes)
  else if decide (file_extension ∈ [".docx"; ".doc"]) then
    ret (_extract_docx_text content_bytes)
  else
    try_catch (ret (decode_utf8_ignore content_bytes))
      (λ _, ret ("[Unable to extract text from " +:+ file_extension +:+ " file]")).
End SharePointClient.

(* ================================================================== *)
(** * ai_analyzer.py *)

(** The dictionary with the keys ['title'] and ['summary'] both analysis
    methods return. *)
Record AnalysisResult : Type := {
  a_title : pyobj;
  a_summary : pyobj;
}.

(** [client] is the text-generation service of [Externals]. *)
Record AIAnalyzer : Type := {
  model : string;
}.

Module Prompt.
Import PyStr.

Definition truncation_marker : string := newline +:+ "... [content truncated]".

Definition system_content : string :=
  "You are a helpful assistant that analyzes documents and extracts key information. Always respond with valid JSON.".

Definition head : string :=
"Analyze the following document and provide:
1. A concise title that best represents the document's content
2. A one-paragraph summary (3-5 sentences) describing the key points and purpose of the document

Document filename: ".

Definition middle : string :=
"

Document content:
".

Definition tail : string :=
"

Please respond in the following JSON format:
{
  " +:+ dquote +:+ "title" +:+ dquote +:+ ": " +:+ dquote +:+
  "Your extracted or generated title here" +:+ dquote +:+ ",
  " +:+ dquote +:+ "summary" +:+ dquote +:+ ": " +:+ dquote +:+
  "Your one-paragraph summary here" +:+ dquote +:+ "
}".

(** The f-string of [analyze_document]. *)
Definition user_content (filename content : string) : string :=
  head +:+ filename +:+ middle +:+ content +:+ tail.

Definition temperature : Q := 3 # 10.
Definition max_tokens : Z := 500.
Definition fence : string := "```".
End Prompt.

(** [if len(content) > max_content_length:
       content = content[:max_content_length] + "\n... [content truncated]"] *)
Definition truncate_content (content : string) (max_content_length : Z) : string :=
  if (max_content_length <? PyStr.len content)%Z
  then PyStr.slice_to content max_content_length +:+ Prompt.truncation_marker
  else content.

(** The removal of a Markdown code fence around the response. *)
Definition unfence (response_text : string) : result string :=
  if PyStr.startswith response_text Prompt.fence then
    match py_index (PyStr.split response_text Prompt.fence) 1 with
    | Ok piece =>
        let piece :=
          if PyStr.startswith piece "json" then PyStr.slice_from piece 4 else piece in
        Ok (PyStr.strip piece)
    | Raise e => Raise e
    end
  else Ok response_text.

(** [message.content.strip()]; the content of a message may be [None]. *)
Definition content_strip (message_content : option string) : result string :=
  match message_content with
  | Some text => Ok (PyStr.strip text)
  | None => Raise (AttributeError "NoneType" "strip")
  end.

(** The dictionary returned from the [except] branch of [analyze_document]. *)
Definition analysis_of_error (filename : string) (e : exn) : AnalysisResult :=
  {| a_title := PyStr filename;
     a_summary := PyStr ("Error during analysis: " +:+ str_of_exn e) |}.

(** The dictionary returned at the end of the [try] branch. *)
Definition analysis_of_object (filename : string) (parsed : pyobj) : result AnalysisResult :=
  title ← py_get parsed "title" (PyStr filename);
  summary ← py_get parsed "summary" (PyStr "Unable to generate summary");
  Ok {| a_title := title; a_summary := summary |}.

Section AIAnalyzer.
Context {World : Type} `{!Externals World}.

(** From the response to the parsed object:
    [response.choices[0].message.content.strip()], the code fence removed,
    [json.loads]. *)
Definition parse_response (choices : list (option string)) : result pyobj :=
  message_content ← py_index choices 0;
  response_text ← content_strip message_content;
  response_text ← unfence response_text;
  json_loads response_text.

Definition analyze_document (self : AIAnalyzer)
    (filename content : string) (max_content_length : Z) : M World AnalysisResult :=
  let content := truncate_content content max_content_length in
  let prompt := Prompt.user_content filename content in
  try_catch
    (choices ← do_chat_completions_create (model self)
                 Prompt.system_content prompt Prompt.temperature Prompt.max_tokens;
     parsed ← lift (parse_response choices);
     lift (analysis_of_object filename parsed))
    (λ e, (* the error is printed *) ret (analysis_of_error filename e)).
End AIAnalyzer.

(** The default of the parameter [max_content_length]. *)
Definition DEFAULT_MAX_CONTENT_LENGTH : Z := 8000.

Definition analyze_file_metadata (self : AIAnalyzer) (filename extension : string)
  : AnalysisResult :=
  {| a_title := PyStr filename;
     a_summary :=
       PyStr ("File type: " +:+ extension +:+
              ". Content analysis not available for this file type.") |}.

(* ================================================================== *)
(** * main.py *)

(** One entry of [analysis_results]. *)
Record AnalysisRecord : Type := {
  r_filename : string;
  r_title : pyobj;
  r_summary : pyobj;
  r_size : Z;
  r_time_modified : string;
  r_extension : string;
}.

(** One entry of [errors]. *)
Record ProcessingError : Type := {
  e_filename : string;
  error_type : string;
  error_message : string;
}.

Definition CONTENT_EXTRACTION_FAILED : string := "Content Extraction Failed".
Definition PROCESSING_FAILED : string := "Processing Failed".

(** The dictionary appended to [analysis_results]. *)
Definition record_of (file_info : FileInfo) (analysis : AnalysisResult) : AnalysisRecord :=
  {| r_filename := name file_info;
     r_title := a_title analysis;
     r_summary := a_summary analysis;
     r_size := size file_info;
     r_time_modified := time_modified file_info;
     r_extension := extension file_info |}.

(** The dictionary appended to [errors]. *)
Definition error_of (file_info : FileInfo) (type : string) (e : exn) : ProcessingError :=
  {| e_filename := name file_info;
     error_type := type;
     error_message := str_of_exn e |}.

(** The condition of the list comprehension of [process_files]. *)
Definition supported `{!Settings} (f : FileInfo) : Prop :=
  extension f ∈ Config.SUPPORTED_FILE_TYPES ∧
  (size f ≤ MAX_FILE_SIZE_MB * 1024 * 1024)%Z.

Global Instance supported_dec `{!Settings} (f : FileInfo) : Decision (supported f).
Proof. unfold supported. apply _. Defined.

(** [content and len(content.strip()) > 0] for a [content] that is a string;
    [content] is [None], which is false, after a failed extraction. *)
Definition has_text (content : string) : bool :=
  negb (PyStr.is_empty content) && (0 <? PyStr.len (PyStr.strip content))%Z.

Section Main.
Context {World : Type} `{!Externals World} `{!Settings}.

(** The body of the loop of [process_files] on one file: the two lists are
    the local variables [analysis_results] and [errors]. *)
Definition process_file (sp_client : SharePointClient) (ai_analyzer : AIAnalyzer)
    (file_info : FileInfo) (analysis_results : list AnalysisRecord)
    (errors : list ProcessingError) (st : state World)
  : list AnalysisRecord * list ProcessingError * state World :=
  let filename := name file_info in
  let extension := extension file_info in
  (* the inner [try] *)
  let '(content, errors, st) :=
    match get_file_content_as_text sp_client
            (server_relative_url file_info) extension st with
    | (Ok text, st) => (Some text, errors, st)
    | (Raise e, st) =>
        (None, errors ++ [error_of file_info CONTENT_EXTRACTION_FAILED e], st)
    end in
  let analyze : M World AnalysisResult :=
    match content with
    | Some text =>
        if has_text text
        then analyze_document ai_analyzer filename text DEFAULT_MAX_CONTENT_LENGTH
        else ret (analyze_file_metadata ai_analyzer filename extension)
    | None => ret (analyze_file_metadata ai_analyzer filename extension)
    end in
  (* the outer [try] *)
  match analyze st with
  | (Ok analysis, st) =>
      (analysis_results ++ [record_of file_info analysis], errors, st)
  | (Raise e, st) =>
      (analysis_results, errors ++ [error_of file_info PROCESSING_FAILED e], st)
  end.

(** [for file_info in supported_files: ...] *)
Fixpoint process_loop (sp_client : SharePointClient) (ai_analyzer : AIAnalyzer)
    (supported_files : list FileInfo) (analysis_results : list AnalysisRecord)
    (errors : list ProcessingError) (st : state World)
  : list AnalysisRecord * list ProcessingError * state World :=
  match supported_files with
  | [] => (analysis_results, errors, st)
  | file_info :: rest =>
      let '(analysis_results, errors, st) :=
        process_file sp_client ai_analyzer file_info analysis_results errors st in
      process_loop sp_client ai_analyzer rest analysis_results errors st
  end.

Definition process_files (sp_client : SharePointClient) (ai_analyzer : AIAnalyzer)
    (files : list FileInfo) (st : state World)
  : list AnalysisRecord * list ProcessingError * state World :=
  let supported_files := filter supported files in
  process_loop sp_client ai_analyzer supported_files [] [] st.
End Main.

(* ================================================================== *)
(** * excel_generator.py *)

(** Python floats in the report.  The one float the report computes is
    [round(size / 1024, 2)].  It is modelled in exact arithmetic, as a [Q],
    which is what the cell shows for a size from 0 up to 2^53: the quotient
    of such an integer by 1024 = 2^10 is exact in binary64; [round] with two
    digits returns the float nearest to the decimal that is nearest to the
    exact value of its argument, a tie going to the even last digit; and
    that decimal has at most 15 significant digits, which a binary64 float
    gives back when it is printed. *)
Module PyFloat.
Local Open Scope Z_scope.

(** The integer nearest to [n / d] for [0 < d], a tie going to the even
    one. *)
Definition round_half_even (n d : Z) : Z :=
  let q := n / d in
  let r := n mod d in
  match 2 * r ?= d with
  | Lt => q
  | Gt => q + 1
  | Eq => if Z.even q then q else q + 1
  end.

(** [a / b] on two integers *)
Definition truediv (a b : Z) : Q := (inject_Z a / inject_Z b)%Q.

(** [round(x, ndigits)] for [0 <= ndigits] *)
Definition round (x : Q) (ndigits : nat) : Q :=
  let scale := 10 ^ Z.of_nat ndigits in
  Qmake (round_half_even (Qnum x * scale) (Zpos (Qden x))) (Z.to_pos scale).
End PyFloat.

(** The value of a cell of a worksheet. *)
Inductive cell : Type :=
  | CellStr (s : string)
  | CellInt (n : Z)
  | CellFloat (x : Q)
  | CellValue (v : pyobj).

(** The cells of a worksheet by row and column, both from 1; styles, merged
    cells, widths and heights are left out. *)
Abbreviation worksheet := (gmap (nat * nat) cell).

Module ExcelGenerator.

Definition header_row : nat := 7.

Definition headers : list string :=
  ["#"; "Filename"; "Title"; "Summary"; "File Size (KB)"; "Last Modified"].

(** [str(n)] for a natural number *)
Definition str_of_nat (n : nat) : string :=
  DecimalString.NilEmpty.string_of_uint (Nat.to_uint n).

(** [ws.cell(row=row, column=column, value=value)] *)
Definition set_cell (row column : nat) (value : cell) (ws : worksheet) : worksheet :=
  <[(row, column) := value]> ws.

(** The cell of the column "File Size (KB)" *)
Definition size_cell (result : AnalysisRecord) : cell :=
  CellFloat (PyFloat.round (PyFloat.truediv (r_size result) 1024) 2).

(** The body of the loop over [enumerate(analysis_results, 1)] *)
Definition write_result (ws : worksheet) (idx : nat) (result : AnalysisRecord)
  : worksheet :=
  let row := header_row + idx in
  set_cell row 6 (CellStr (r_time_modified result))
    (set_cell row 5 (size_cell result)
       (set_cell row 4 (CellValue (r_summary result))
          (set_cell row 3 (CellValue (r_title result))
             (set_cell row 2 (CellStr (r_filename result))
                (set_cell row 1 (CellInt (Z.of_nat idx)) ws))))).

Fixpoint write_results (ws : worksheet) (idx : nat)
    (analysis_results : list AnalysisRecord) : worksheet :=
  match analysis_results with
  | [] => ws
  | result :: rest => write_results (write_result ws idx result) (S idx) rest
  end.

Fixpoint write_headers (ws : worksheet) (col_num : nat) (headers : list string)
  : worksheet :=
  match headers with
  | [] => ws
  | header :: rest =>
      write_headers (set_cell header_row col_num (CellStr header) ws) (S col_num) rest
  end.

(** [create_report]; [now] is [datetime.now().strftime(...)]. *)
Definition create_report (ws : worksheet) (analysis_results : list AnalysisRecord)
    (sharepoint_url folder_path now : string) : worksheet :=
  let ws := set_cell 1 1 (CellStr "SharePoint File Analysis Report") ws in
  let ws := set_cell 2 1 (CellStr ("SharePoint Site: " +:+ sharepoint_url)) ws in
  let ws := set_cell 3 1 (CellStr ("Folder Path: " +:+ folder_path)) ws in
  let ws := set_cell 4 1 (CellStr ("Generated: " +:+ now)) ws in
  let ws := set_cell 5 1
    (CellStr ("Total Files Analyzed: " +:+ str_of_nat (length analysis_results))) ws in
  let ws := write_headers ws 1 headers in
  write_results ws 1 analysis_results.

End ExcelGenerator.

(* ================================================================== *)
(** * Notions used in the statements *)

(** The number of errors of one type in a list of errors. *)
Definition count_errors (type : string) (errors : list ProcessingError) : nat :=
  length (filter (λ e, error_type e = type) errors).

(** The JSON object [analyze_document] gets out of the reply of the
    text-generation call, or the exception that keeps it from getting one:
    that of the call, of reading and parsing the response, or of asking a
    parsed value that is no object for a field. *)
Definition parsed_object {World : Type} `{!Externals World}
    (reply : result (list (option string))) : result (gmap string pyobj) :=
  choices ← reply;
  parsed ← parse_response choices;
  match parsed with
  | PyDict entries => Ok entries
  | other => Raise (AttributeError (type_name other) "get")
  end.

Section Calls.
Context {World : Type} `{!Externals World}.
Implicit Types (self : AIAnalyzer) (st : state World).

(** The text [get_file_content_as_text] returns for the bytes it has
    downloaded. *)
Definition extract_text (content_bytes : bytes) (file_extension : string) : string :=
  if decide (file_extension = ".txt") then decode_utf8_ignore content_bytes
  else if decide (file_extension = ".pdf") then _extract_pdf_text content_bytes
  else if decide (file_extension ∈ [".docx"; ".doc"]) then _extract_docx_text content_bytes
  else decode_utf8_ignore content_bytes.


(** The reply of the service to the call [analyze_document] makes. *)
Definition reply_to self (filename content : string) (max_content_length : Z) st
  : result (list (option string)) * World :=
  chat_completions_create (model self) Prompt.system_content
    (Prompt.user_content filename (truncate_content content max_content_length))
    Prompt.temperature Prompt.max_tokens (world st).

(** The state [analyze_document] leaves: the world as the service left
    it, and one more call. *)
Definition state_after self (filename content : string) (max_content_length : Z) st
  : state World :=
  State (reply_to self filename content max_content_length st).2
    (calls st ++
       [CallChatCompletion (model self) Prompt.system_content
          (Prompt.user_content filename (truncate_content content max_content_length))
          Prompt.temperature Prompt.max_tokens]).

End Calls.

Section Outputs.
Context {World : Type} `{!Externals World} `{!Settings}.

(** What each file of a list adds to [analysis_results] and to [errors]
    when the loop runs over the list from the state [st]: the body is run
    on each file with both lists empty, from the state the files before it
    have left. *)
Fixpoint outputs (sp_client : SharePointClient) (ai_analyzer : AIAnalyzer)
    (supported_files : list FileInfo) (st : state World)
  : list (list AnalysisRecord * list ProcessingError) :=
  match supported_files with
  | [] => []
  | file_info :: rest =>
      let '(records, errors, st) :=
        process_file sp_client ai_analyzer file_info [] [] st in
      (records, errors) :: outputs sp_client ai_analyzer rest st
  end.
End Outputs.

(* ================================================================== *)
(** * A concrete site and service, for the examples *)

Module Fixture.

(** The site holds files by URL; the service answers from a script, one
    scripted reply per call, and fails once the script is used up. *)
Record World : Type := {
  store : gmap string bytes;
  replies : list (result (list (option string)));
}.

(** [{"title": "Notes", "summary": "Some notes."}] *)
Definition full_reply : string :=
  "{" +:+ PyStr.dquote +:+ "title" +:+ PyStr.dquote +:+ ": " +:+
  PyStr.dquote +:+ "Notes" +:+ PyStr.dquote +:+ ", " +:+
  PyStr.dquote +:+ "summary" +:+ PyStr.dquote +:+ ": " +:+
  PyStr.dquote +:+ "Some notes." +:+ PyStr.dquote +:+ "}".

(** [{"title": "Notes"}] *)
Definition title_only_reply : string :=
  "{" +:+ PyStr.dquote +:+ "title" +:+ PyStr.dquote +:+ ": " +:+
  PyStr.dquote +:+ "Notes" +:+ PyStr.dquote +:+ "}".

(** [{"summary": ""}] *)
Definition summary_only_reply : string :=
  "{" +:+ PyStr.dquote +:+ "summary" +:+ PyStr.dquote +:+ ": " +:+
  PyStr.dquote +:+ PyStr.dquote +:+ "}".

Definition full_object : pyobj :=
  PyDict (<["title" := PyStr "Notes"]> (<["summary" := PyStr "Some notes."]> ∅)).
Definition title_only_object : pyobj := PyDict (<["title" := PyStr "Notes"]> ∅).
Definition summary_only_object : pyobj := PyDict (<["summary" := PyStr ""]> ∅).

Definition not_found : exn :=
  Exception "ClientRequestException" "404 Client Error: Not Found".
Definition connection_error : exn :=
  Exception "APIConnectionError" "Connection error.".
Definition pdf_error : exn := Exception "PdfReadError" "EOF marker not found".
Definition docx_error : exn := Exception "BadZipFile" "File is not a zip file".
Definition json_error : exn :=
  Exception "JSONDecodeError" "Expecting value: line 1 column 1 (char 0)".

(** The library functions on the inputs of the examples: the bytes are all
    ASCII, no byte string is a readable PDF or DOCX document, and the
    three replies above are the JSON texts. *)
Global Instance externals : Externals World := {|
  sharepoint_read _ url w :=
    match store w !! url with
    | Some content => (Ok content, w)
    | None => (Raise not_found, w)
    end;
  chat_completions_create _ _ _ _ _ w :=
    match replies w with
    | reply :: rest => (reply, {| store := store w; replies := rest |})
    | [] => (Raise connection_error, w)
    end;
  decode_utf8_ignore := string_of_list_byte;
  pdf_page_texts _ := Raise pdf_error;
  docx_paragraph_texts _ := Raise docx_error;
  json_loads text :=
    if decide (text = full_reply) then Ok full_object
    else if decide (text = title_only_reply) then Ok title_only_object
    else if decide (text = summary_only_reply) then Ok summary_only_object
    else Raise json_error;
|}.

Global Instance settings : Settings :=
  {| MAX_FILE_SIZE_MB := Config.DEFAULT_MAX_FILE_SIZE_MB |}.

Definition site : string := "https://example.sharepoint.com/sites/docs".
Definition sp_client : SharePointClient := {| site_url := site; ctx := Some site |}.
Definition sp_client_unconnected : SharePointClient :=
  {| site_url := site; ctx := None |}.
Definition ai_analyzer : AIAnalyzer := {| model := "gpt-4o-mini" |}.

(** A text file of 100 bytes, a PDF file whose bytes are no PDF document,
    and a file of a type that is not supported. *)
Definition txt_bytes : bytes := replicate 100 "a"%byte.
Definition pdf_bytes : bytes := list_byte_of_string "not a pdf".
Definition bin_bytes : bytes := list_byte_of_string "0123456789".

Definition txt_file : FileInfo :=
  {| name := "notes.txt"; server_relative_url := "/sites/docs/notes.txt";
     size := 100; time_created := "2024-01-01T00:00:00Z";
     time_modified := "2024-01-02T00:00:00Z"; extension := ".txt" |}.
Definition pdf_file : FileInfo :=
  {| name := "broken.pdf"; server_relative_url := "/sites/docs/broken.pdf";
     size := 9; time_created := "2024-01-01T00:00:00Z";
     time_modified := "2024-01-03T00:00:00Z"; extension := ".pdf" |}.
Definition bin_file : FileInfo :=
  {| name := "blob.bin"; server_relative_url := "/sites/docs/blob.bin";
     size := 10; time_created := "2024-01-01T00:00:00Z";
     time_modified := "2024-01-04T00:00:00Z"; extension := ".bin" |}.
(** A text file of 2048 bytes. *)
Definition kib_bytes : bytes := replicate 2048 "b"%byte.
Definition kib_file : FileInfo :=
  {| name := "two.txt"; server_relative_url := "/sites/docs/two.txt";
     size := 2048; time_created := "2024-01-01T00:00:00Z";
     time_modified := "2024-01-05T00:00:00Z"; extension := ".txt" |}.
(** A supported file the site does not hold. *)
Definition missing_file : FileInfo :=
  {| name := "gone.txt"; server_relative_url := "/sites/docs/gone.txt";
     size := 5; time_created := ""; time_modified := ""; extension := ".txt" |}.

Definition the_store : gmap string bytes :=
  <["/sites/docs/notes.txt" := txt_bytes]>
    (<["/sites/docs/broken.pdf" := pdf_bytes]>
       (<["/sites/docs/blob.bin" := bin_bytes]>
          (<["/sites/docs/two.txt" := kib_bytes]> ∅))).

Definition start (script : list (result (list (option string)))) : state World :=
  State {| store := the_store; replies := script |} [].

Definition good_reply : result (list (option string)) := Ok [Some full_reply].
End Fixture.

(* ================================================================== *)
(** * config.py: the values read from the environment *)

(** The class attributes of [Config] that [os.getenv] fills in when the
    module is imported; each is a string, empty when the variable is unset
    and has no other default. *)
Class Environ : Type := {
  SHAREPOINT_SITE_URL : string;
  SHAREPOINT_USERNAME : string;
  SHAREPOINT_PASSWORD : string;
  SHAREPOINT_CLIENT_ID : string;
  SHAREPOINT_CLIENT_SECRET : string;
  SHAREPOINT_TENANT_ID : string;
  OPENAI_API_KEY : string;
  OPENAI_MODEL : string;
  AZURE_OPENAI_ENDPOINT : string;
  AZURE_OPENAI_API_KEY : string;
  AZURE_OPENAI_DEPLOYMENT : string;
  AZURE_OPENAI_API_VERSION : string;
  OUTPUT_FILENAME : string;
}.

(** [bool(s)] for a string: the empty string is false. *)
Definition truthy (s : string) : bool := negb (PyStr.is_empty s).

(** [a and b] on strings: [a] when it is false, [b] otherwise. *)
Definition str_and (a b : string) : string := if truthy a then b else a.

(** [a or b] on strings: [a] when it is true, [b] otherwise. *)
Definition str_or (a b : string) : string := if truthy a then a else b.

(** [a or b] where [a] may be [None]. *)
Definition opt_or (a : option string) (b : string) : string :=
  match a with
  | Some s => str_or s b
  | None => b
  end.

Definition SITE_URL_NOT_SET : string := "SHAREPOINT_SITE_URL is not set".
Definition CREDENTIALS_NOT_SET : string :=
  "SharePoint authentication credentials not set (username/password or Azure AD)".
Definition AI_CREDENTIALS_NOT_SET : string :=
  "AI API credentials not set (OpenAI or Azure OpenAI)".

Definition ValueError (message : string) : exn := Exception "ValueError" message.
Definition KeyError (key : string) : exn := Exception "KeyError" ("'" +:+ key +:+ "'").
Definition EOFError : exn := Exception "EOFError" "EOF when reading a line".

Section Config.
Context `{!Environ}.

(** [Config.validate] *)
Definition validate : list string :=
  let errors := [] in
  let errors :=
    if negb (truthy SHAREPOINT_SITE_URL) then errors ++ [SITE_URL_NOT_SET] else errors in
  let has_basic_auth := str_and SHAREPOINT_USERNAME SHAREPOINT_PASSWORD in
  let has_azure_auth :=
    str_and (str_and SHAREPOINT_CLIENT_ID SHAREPOINT_CLIENT_SECRET) SHAREPOINT_TENANT_ID in
  let errors :=
    if negb (truthy (str_or has_basic_auth has_azure_auth))
    then errors ++ [CREDENTIALS_NOT_SET] else errors in
  let has_openai := OPENAI_API_KEY in
  let has_azure_openai :=
    str_and (str_and AZURE_OPENAI_ENDPOINT AZURE_OPENAI_API_KEY) AZURE_OPENAI_DEPLOYMENT in
  let errors :=
    if negb (truthy (str_or has_openai has_azure_openai))
    then errors ++ [AI_CREDENTIALS_NOT_SET] else errors in
  errors.

(** [Config.is_using_azure_openai] *)
Definition is_using_azure_openai : bool :=
  truthy (str_and (str_and AZURE_OPENAI_ENDPOINT AZURE_OPENAI_API_KEY)
            AZURE_OPENAI_DEPLOYMENT).

(** [validate_configuration] of main.py: the errors are printed. *)
Definition validate_configuration : bool :=
  match validate with
  | [] => true
  | _ :: _ => false
  end.

(** [SharePointClient.__init__] *)
Definition SharePointClient_init (site_url : option string) : SharePointClient :=
  {| site_url := opt_or site_url SHAREPOINT_SITE_URL; ctx := None |}.

(** [SharePointClient.connect]: the client with its [ctx] set, or the
    [ValueError].  Making the credentials and the context calls no
    service. *)
Definition connect (self : SharePointClient) (username password : option string)
  : result SharePointClient :=
  let username := opt_or username SHAREPOINT_USERNAME in
  let password := opt_or password SHAREPOINT_PASSWORD in
  if truthy (str_and username password) then
    Ok {| site_url := site_url self; ctx := Some (site_url self) |}
  else if truthy (str_and SHAREPOINT_CLIENT_ID SHAREPOINT_CLIENT_SECRET) then
    Ok {| site_url := site_url self; ctx := Some (site_url self) |}
  else Raise (ValueError "No valid SharePoint credentials provided").
End Config.

(** The client [AIAnalyzer.__init__] makes, with the arguments it is made
    from. *)
Inductive ai_client : Type :=
  | AzureOpenAI (api_key api_version azure_endpoint : string)
  | OpenAI (api_key : string).

Definition client_api_key (client : ai_client) : string :=
  match client with
  | AzureOpenAI api_key _ _ => api_key
  | OpenAI api_key => api_key
  end.

(** The arguments of [AIAnalyzer.__init__] for the client constructor, and
    the analyzer with its [model]. *)
Definition AIAnalyzer_init `{!Environ} : ai_client * AIAnalyzer :=
  if is_using_azure_openai then
    (AzureOpenAI AZURE_OPENAI_API_KEY AZURE_OPENAI_API_VERSION AZURE_OPENAI_ENDPOINT,
     {| model := AZURE_OPENAI_DEPLOYMENT |})
  else
    (OpenAI OPENAI_API_KEY, {| model := OPENAI_MODEL |}).

(* ================================================================== *)
(** * main.py: reading from the terminal *)

(** The standard input is the list of the lines still to be read.
    [input()] returns the next line, or raises [EOFError] at the end of the
    input; the prompt it prints is left out. *)
Definition input (stdin : list string) : result string * list string :=
  match stdin with
  | [] => (Raise EOFError, [])
  | line :: rest => (Ok line, rest)
  end.

(** The loop [while not user_input: user_input = input(...).strip()],
    entered with an empty [user_input]. *)
Fixpoint ask_again (stdin : list string) : result string * list string :=
  match stdin with
  | [] => (Raise EOFError, [])
  | line :: rest =>
      let user_input := PyStr.strip line in
      if truthy user_input then (Ok user_input, rest) else ask_again rest
  end.

(** [get_user_input]; [default] is [None] when the argument is left out. *)
Definition get_user_input (prompt : string) (default : option string)
    (stdin : list string) : result string * list string :=
  match default with
  | Some default_value =>
      if truthy default_value then
        match input stdin with
        | (Ok line, rest) =>
            let user_input := PyStr.strip line in
            (Ok (if truthy user_input then user_input else default_value), rest)
        | (Raise e, rest) => (Raise e, rest)
        end
      else
        match input stdin with
        | (Ok line, rest) =>
            let user_input := PyStr.strip line in
            if truthy user_input then (Ok user_input, rest) else ask_again rest
        | (Raise e, rest) => (Raise e, rest)
        end
  | None =>
      match input stdin with
      | (Ok line, rest) =>
          let user_input := PyStr.strip line in
          if truthy user_input then (Ok user_input, rest) else ask_again rest
      | (Raise e, rest) => (Raise e, rest)
      end
  end.

(* ================================================================== *)
(** * os.path.splitext and str.lower *)

Module OsPath.

(** The separators of [os.path]: ["/"] alone for [posixpath], the backslash
    with ["/"] as the alternative for [ntpath]. *)
Class Platform : Type := {
  sep : ascii;
  altsep : option ascii;
}.

Definition posix : Platform := {| sep := "/"; altsep := None |}.
Definition nt : Platform := {| sep := "\"; altsep := Some "/"%char |}.

Definition extsep : ascii := ".".

(** [s.rfind(c)] from the index [i] of the first character of [s], with
    [found] the last index found so far. *)
Fixpoint rfind_from (c : ascii) (s : string) (i found : Z) : Z :=
  match s with
  | EmptyString => found
  | String a s' => rfind_from c s' (i + 1) (if decide (a = c) then i else found)
  end.

(** [s.rfind(c)]: the last index of [c] in [s], -1 when there is none *)
Definition rfind (s : string) (c : ascii) : Z := rfind_from c s 0 (-1).

(** The loop [while filenameIndex < dotIndex] of [genericpath._splitext],
    with [steps = dotIndex - filenameIndex]: [true] when it ends without
    finding a character other than the dot. *)
Fixpoint only_dots (p : string) (filenameIndex : Z) (steps : nat) : bool :=
  match steps with
  | O => true
  | S steps' =>
      if decide (String.get (Z.to_nat filenameIndex) p = Some extsep)
      then only_dots p (filenameIndex + 1) steps'
      else false
  end.

(** [os.path.splitext(p)] *)
Definition splitext `{!Platform} (p : string) : string * string :=
  let sepIndex := rfind p sep in
  let sepIndex :=
    match altsep with
    | Some alt => Z.max sepIndex (rfind p alt)
    | None => sepIndex
    end in
  let dotIndex := rfind p extsep in
  if (sepIndex <? dotIndex)%Z then
    if only_dots p (sepIndex + 1) (Z.to_nat (dotIndex - (sepIndex + 1)))
    then (p, EmptyString)
    else (PyStr.slice_to p dotIndex, PyStr.slice_from p dotIndex)
  else (p, EmptyString).

End OsPath.

(** [c.lower()] for one code point below 256: the letters A to Z and the
    capital letters of Latin-1, which are 32 below their small letters. *)
Definition lower_char (c : ascii) : ascii :=
  let n := nat_of_ascii c in
  if bool_decide (65 ≤ n ≤ 90 ∨ (192 ≤ n ≤ 222 ∧ n ≠ 215))
  then ascii_of_nat (n + 32) else c.

(** [s.lower()] *)
Fixpoint lower (s : string) : string :=
  match s with
  | EmptyString => EmptyString
  | String c s' => String (lower_char c) (lower s')
  end.

(** [s.lstrip(c)] for one character [c] *)
Fixpoint lstrip_char (c : ascii) (s : string) : string :=
  match s with
  | EmptyString => EmptyString
  | String a s' => if decide (a = c) then lstrip_char c s' else s
  end.

(* ================================================================== *)
(** * sharepoint_client.py: listing a folder *)

(** The [properties] of one file of a folder, as far as [list_files] reads
    them: the name and the URL are strings and the length is an integer, as
    the fields of [FileInfo] are; a field is [None] when the dictionary has
    no such key. *)
Record FileProperties : Type := {
  Name : option string;
  ServerRelativeUrl : option string;
  Length : option Z;
  TimeCreated : option string;
  TimeLastModified : option string;
}.

(** [properties[key]] *)
Definition py_item {A : Type} (key : string) (value : option A) : result A :=
  match value with
  | Some v => Ok v
  | None => Raise (KeyError key)
  end.

(** The services and library functions the rest of the program uses. *)
Class Host (World : Type) : Type := {
  (** [folder = ctx.web.get_folder_by_server_relative_path(folder_path)],
      [ctx.load(folder.files)], [ctx.execute_query()]: the properties of the
      files of the folder, in the order of the iteration *)
  sharepoint_folder_files : string → string → World → result (list FileProperties) * World;
  (** [AzureOpenAI(...)] and [OpenAI(...)] *)
  new_ai_client : ai_client → World → result () * World;
  (** [datetime.now().strftime('%Y-%m-%d %H:%M:%S')] *)
  datetime_now : World → string * World;
  (** [wb.save(filename)] for the sheets of [wb], each with its title *)
  workbook_save : string → list (string * worksheet) → World → result () * World;
  (** the title [wb.create_sheet(title)] gives the new sheet, from the
      titles of the sheets there are *)
  new_sheet_title : list string → string → string;
}.

Section ListFiles.
Context {World : Type} `{!Host World} `{!OsPath.Platform}.

(** The dictionary [list_files] makes from the properties of one file. *)
Definition file_info_of (properties : FileProperties) : result FileInfo :=
  name ← py_item "Name" (Name properties);
  server_relative_url ← py_item "ServerRelativeUrl" (ServerRelativeUrl properties);
  size ← py_item "Length" (Length properties);
  let time_created := default "" (TimeCreated properties) in
  let time_modified := default "" (TimeLastModified properties) in
  name' ← py_item "Name" (Name properties);
  Ok {| name := name;
        server_relative_url := server_relative_url;
        size := size;
        time_created := time_created;
        time_modified := time_modified;
        extension := lower (OsPath.splitext name').2 |}.

(** The loop [for file in files: ... file_list.append(file_info)] *)
Fixpoint file_infos_of (files : list FileProperties) (file_list : list FileInfo)
  : result (list FileInfo) :=
  match files with
  | [] => Ok file_list
  | file :: rest =>
      file_info ← file_info_of file;
      file_infos_of rest (file_list ++ [file_info])
  end.

Definition do_sharepoint_folder_files (site folder_path : string)
  : M World (list FileProperties) :=
  λ st,
    let '(r, w) := sharepoint_folder_files site folder_path (world st) in
    (r, State w (calls st)).

(** [SharePointClient.list_files] *)
Definition list_files (self : SharePointClient) (folder_path : string)
  : M World (list FileInfo) :=
  match ctx self with
  | None => raise (RuntimeError "Not connected to SharePoint. Call connect() first.")
  | Some site =>
      let folder_path := lstrip_char "/" folder_path in
      try_catch
        (files ← do_sharepoint_folder_files site folder_path;
         lift (file_infos_of files []))
        (λ e, (* the error is printed *) raise e)
  end.
End ListFiles.

(** [c in s] for one character [c] *)
Fixpoint has_char (c : ascii) (s : string) : bool :=
  match s with
  | EmptyString => false
  | String a s' => bool_decide (a = c) || has_char c s'
  end.

(** A string has no separator of the platform. *)
Definition no_separator `{!OsPath.Platform} (s : string) : Prop :=
  has_char OsPath.sep s = false ∧
  match OsPath.altsep with
  | Some alt => has_char alt s = false
  | None => True
  end.

(** All the characters of a string are dots. *)
Fixpoint only_dot_chars (s : string) : bool :=
  match s with
  | EmptyString => true
  | String a s' => bool_decide (a = OsPath.extsep) && only_dot_chars s'
  end.

(* ================================================================== *)
(** * excel_generator.py: the workbook *)

(** An [ExcelGenerator]: [ws] is the active sheet of the workbook [wb],
    which [__init__] titles "File Analysis"; [more_sheets] are the sheets
    made after it, each with its title, in the order they were made. *)
Record excel_generator : Type := {
  output_filename : string;
  ws : worksheet;
  more_sheets : list (string * worksheet);
}.

Definition WS_TITLE : string := "File Analysis".

(** The sheets of [self.wb] with their titles. *)
Definition wb (self : excel_generator) : list (string * worksheet) :=
  (WS_TITLE, ws self) :: more_sheets self.

(** [ExcelGenerator.__init__] *)
Definition ExcelGenerator_init (output_filename : string) : excel_generator :=
  {| output_filename := output_filename; ws := ∅; more_sheets := [] |}.

Definition error_headers : list string := ["Filename"; "Error Type"; "Error Message"].

(** The loop over [enumerate(headers, 1)] of [add_error_sheet] *)
Fixpoint write_error_headers (error_ws : worksheet) (col_num : nat)
    (headers : list string) : worksheet :=
  match headers with
  | [] => error_ws
  | header :: rest =>
      write_error_headers
        (ExcelGenerator.set_cell 3 col_num (CellStr header) error_ws) (S col_num) rest
  end.

(** The body of the loop over [enumerate(errors, 1)] *)
Definition write_error (error_ws : worksheet) (idx : nat) (error : ProcessingError)
  : worksheet :=
  let row := 3 + idx in
  ExcelGenerator.set_cell row 3 (CellStr (error_message error))
    (ExcelGenerator.set_cell row 2 (CellStr (error_type error))
       (ExcelGenerator.set_cell row 1 (CellStr (e_filename error)) error_ws)).

Fixpoint write_errors (error_ws : worksheet) (idx : nat) (errors : list ProcessingError)
  : worksheet :=
  match errors with
  | [] => error_ws
  | error :: rest => write_errors (write_error error_ws idx error) (S idx) rest
  end.

(** The cells of the sheet [add_error_sheet] makes. *)
Definition error_sheet (errors : list ProcessingError) : worksheet :=
  let error_ws : worksheet := ∅ in
  let error_ws :=
    ExcelGenerator.set_cell 1 1 (CellStr "Files with Processing Errors") error_ws in
  let error_ws := write_error_headers error_ws 1 error_headers in
  write_errors error_ws 1 errors.

Section Workbook.
Context {World : Type} `{!Host World}.

Definition do_datetime_now : M World string :=
  λ st, let '(now, w) := datetime_now (world st) in (Ok now, State w (calls st)).

Definition do_workbook_save (filename : string) (sheets : list (string * worksheet))
  : M World () :=
  λ st, let '(r, w) := workbook_save filename sheets (world st) in (r, State w (calls st)).

(** [ExcelGenerator.create_report] on the generator *)
Definition generator_create_report (self : excel_generator)
    (analysis_results : list AnalysisRecord) (sharepoint_url folder_path : string)
  : M World excel_generator :=
  now ← do_datetime_now;
  ret {| output_filename := output_filename self;
         ws := ExcelGenerator.create_report (ws self) analysis_results
                 sharepoint_url folder_path now;
         more_sheets := more_sheets self |}.

(** [ExcelGenerator.add_error_sheet] *)
Definition add_error_sheet (self : excel_generator) (errors : list ProcessingError)
  : excel_generator :=
  match errors with
  | [] => self
  | _ :: _ =>
      let title := new_sheet_title (wb self).*1 "Errors" in
      {| output_filename := output_filename self;
         ws := ws self;
         more_sheets := more_sheets self ++ [(title, error_sheet errors)] |}
  end.

(** [ExcelGenerator.save]: the messages are printed. *)
Definition save (self : excel_generator) : M World bool :=
  try_catch
    (_ ← do_workbook_save (output_filename self) (wb self); ret true)
    (λ e, ret false).
End Workbook.

(** The six cells of the row [create_report] writes for a record with the
    number [idx]. *)
Definition row_cell (idx : nat) (result : AnalysisRecord) (column : nat) : option cell :=
  match column with
  | 1 => Some (CellInt (Z.of_nat idx))
  | 2 => Some (CellStr (r_filename result))
  | 3 => Some (CellValue (r_title result))
  | 4 => Some (CellValue (r_summary result))
  | 5 => Some (ExcelGenerator.size_cell result)
  | 6 => Some (CellStr (r_time_modified result))
  | _ => None
  end.

(* ================================================================== *)
(** * main.py: the program *)

(** How a piece of the program ends: it returns a value, it raises an
    exception, or [sys.exit(code)] ends the program; [SystemExit] is no
    [Exception], so no [except Exception] catches it.  An interrupt from
    the keyboard is not modelled. *)
Inductive outcome (A : Type) : Type :=
  | Returned (value : A)
  | Raised (e : exn)
  | Exited (code : Z).
Arguments Returned {A} value.
Arguments Raised {A} e.
Arguments Exited {A} code.

(** The state of a run: the services, and the lines left on the standard
    input. *)
Record process (World : Type) : Type := Process {
  services : state World;
  stdin : list string;
}.
Arguments Process {World} services stdin.
Arguments services {World} p.
Arguments stdin {World} p.

Definition P (World A : Type) : Type := process World → outcome A * process World.

Section ProgramMonad.
Context {World : Type}.

Definition P_ret {A} (a : A) : P World A := λ p, (Returned a, p).

Definition P_bind {A B} (m : P World A) (k : A → P World B) : P World B :=
  λ p, match m p with
       | (Returned a, p') => k a p'
       | (Raised e, p') => (Raised e, p')
       | (Exited code, p') => (Exited code, p')
       end.

(** [sys.exit(code)] *)
Definition sys_exit {A} (code : Z) : P World A := λ p, (Exited code, p).

Definition of_result {A} (r : result A) : P World A :=
  λ p, match r with
       | Ok a => (Returned a, p)
       | Raise e => (Raised e, p)
       end.

(** A step that reads the standard input. *)
Definition of_stdin {A} (read : list string → result A * list string) : P World A :=
  λ p, let '(r, rest) := read (stdin p) in of_result r (Process (services p) rest).

(** A step that uses the services. *)
Definition of_services {A} (m : M World A) : P World A :=
  λ p, let '(r, st) := m (services p) in of_result r (Process st (stdin p)).
End ProgramMonad.

Global Instance P_mret {World} : MRet (P World) := λ A, P_ret.
Global Instance P_mbind {World} : MBind (P World) := λ A B k m, P_bind m k.

Section MainProgram.
Context {World : Type} `{!Externals World} `{!Host World}.
Context `{!Settings} `{!Environ} `{!OsPath.Platform}.

(** [AIAnalyzer()] *)
Definition AIAnalyzer_new : M World AIAnalyzer :=
  λ st,
    let '(r, w) := new_ai_client AIAnalyzer_init.1 (world st) in
    (match r with
     | Ok _ => Ok AIAnalyzer_init.2
     | Raise e => Raise e
     end, State w (calls st)).

(** [use_env_config] of [main] *)
Definition use_env_config : string :=
  str_and SHAREPOINT_SITE_URL (str_or SHAREPOINT_USERNAME SHAREPOINT_CLIENT_ID).

(** The body of the [try] of [main]. *)
Definition main_try : P World () :=
  sharepoint_url ←
    (if truthy use_env_config then mret SHAREPOINT_SITE_URL
     else of_stdin (get_user_input "Enter SharePoint site URL"
                      (Some "https://yourdomain.sharepoint.com/sites/yoursite")));
  folder_path ←
    of_stdin (get_user_input "Enter SharePoint folder path" (Some "Shared Documents"));
  credentials ←
    (if negb (truthy use_env_config) then
       username ← of_stdin (get_user_input "Enter SharePoint username/email" None);
       password ← of_stdin (get_user_input "Enter SharePoint password" None);
       mret (Some username, Some password)
     else mret (None, None));
  let sp_client := SharePointClient_init (Some sharepoint_url) in
  sp_client ← of_result (connect sp_client credentials.1 credentials.2);
  ai_analyzer ← of_services AIAnalyzer_new;
  files ← of_services (list_files sp_client folder_path);
  match files with
  | [] => sys_exit 0
  | _ :: _ =>
      results ←
        (λ p, let '(analysis_results, errors, st) :=
                process_files sp_client ai_analyzer files (services p) in
              (Returned (analysis_results, errors), Process st (stdin p)));
      let '(analysis_results, errors) := results in
      match analysis_results with
      | [] => sys_exit 1
      | _ :: _ =>
          let excel_gen := ExcelGenerator_init OUTPUT_FILENAME in
          excel_gen ←
            of_services (generator_create_report excel_gen analysis_results
                           sharepoint_url folder_path);
          let excel_gen :=
            match errors with
            | [] => excel_gen
            | _ :: _ => add_error_sheet excel_gen errors
            end in
          saved ← of_services (save excel_gen);
          if (saved : bool) then mret tt else sys_exit 1
      end
  end.

(** [main]: the banner and the messages are printed. *)
Definition main : P World () :=
  λ p,
    if negb validate_configuration then (Exited 1, p)
    else
      match main_try p with
      | (Returned _, p') => (Returned tt, p')
      | (Exited code, p') => (Exited code, p')
      | (Raised e, p') => (* the error is printed *) (Exited 1, p')
      end.

(** The exit status of the program. *)
Definition exit_status (o : outcome ()) : Z :=
  match o with
  | Returned _ => 0
  | Exited code => code
  | Raised _ => 1
  end.
End MainProgram.

(* ================================================================== *)
(** * Notions used in the statements about the program *)

Section ProgramNotions.
Context {World : Type} `{!Host World} `{!Environ}.

(** The client [main] works with once it is connected from the
    environment. *)
Definition connected_client : SharePointClient :=
  {| site_url := SHAREPOINT_SITE_URL; ctx := Some SHAREPOINT_SITE_URL |}.

(** The generator [main] hands to [save]: a new one, after [create_report]
    and, when there are errors, [add_error_sheet]. *)
Definition report_generator (analysis_results : list AnalysisRecord)
    (errors : list ProcessingError) (sharepoint_url folder_path now : string)
  : excel_generator :=
  let excel_gen :=
    {| output_filename := OUTPUT_FILENAME;
       ws := ExcelGenerator.create_report ∅ analysis_results sharepoint_url
               folder_path now;
       more_sheets := [] |} in
  match errors with
  | [] => excel_gen
  | _ :: _ => add_error_sheet excel_gen errors
  end.
End ProgramNotions.

(** The calls of one kind in a list of calls. *)
Definition is_read (c : call) : bool :=
  match c with CallReadFile _ _ => true | CallChatCompletion _ _ _ _ _ => false end.
Definition is_chat (c : call) : bool :=
  match c with CallReadFile _ _ => false | CallChatCompletion _ _ _ _ _ => true end.
Definition count_reads (cs : list call) : nat := length (List.filter is_read cs).
Definition count_chats (cs : list call) : nat := length (List.filter is_chat cs).

(* ================================================================== *)
(** * A concrete configuration and folder, for the examples *)

Module Demo.
Import Fixture.

(** Username and password and an OpenAI key are set; nothing of Azure is. *)
Global Instance environ : Environ := {|
  SHAREPOINT_SITE_URL := site;
  SHAREPOINT_USERNAME := "user@example.com";
  SHAREPOINT_PASSWORD := "secret";
  SHAREPOINT_CLIENT_ID := "";
  SHAREPOINT_CLIENT_SECRET := "";
  SHAREPOINT_TENANT_ID := "";
  OPENAI_API_KEY := "sk-test";
  OPENAI_MODEL := "gpt-4o-mini";
  AZURE_OPENAI_ENDPOINT := "";
  AZURE_OPENAI_API_KEY := "";
  AZURE_OPENAI_DEPLOYMENT := "";
  AZURE_OPENAI_API_VERSION := "2024-02-01";
  OUTPUT_FILENAME := "sharepoint_file_analysis.xlsx";
|}.

Global Instance platform : OsPath.Platform := OsPath.posix.

Definition notes_properties : FileProperties :=
  {| Name := Some "notes.txt"; ServerRelativeUrl := Some "/sites/docs/notes.txt";
     Length := Some 100%Z; TimeCreated := Some "2024-01-01T00:00:00Z";
     TimeLastModified := Some "2024-01-02T00:00:00Z" |}.
Definition blob_properties : FileProperties :=
  {| Name := Some "blob.bin"; ServerRelativeUrl := Some "/sites/docs/blob.bin";
     Length := Some 10%Z; TimeCreated := None; TimeLastModified := None |}.
Definition report_properties : FileProperties :=
  {| Name := Some "REPORT.PDF"; ServerRelativeUrl := Some "/sites/docs/broken.pdf";
     Length := Some 9%Z; TimeCreated := None; TimeLastModified := None |}.
Definition nameless_properties : FileProperties :=
  {| Name := None; ServerRelativeUrl := Some "/sites/docs/x"; Length := Some 1%Z;
     TimeCreated := None; TimeLastModified := None |}.

(** The site has four folders; the clock stands still; every workbook can
    be saved; and a new sheet gets the title asked for, which is what
    openpyxl does when no sheet has that title yet. *)
Global Instance host : Host World := {|
  sharepoint_folder_files _ folder_path w :=
    if decide (folder_path = "Shared Documents")
    then (Ok [notes_properties; blob_properties], w)
    else if decide (folder_path = "Empty") then (Ok [], w)
    else if decide (folder_path = "Binaries") then (Ok [blob_properties], w)
    else if decide (folder_path = "Broken")
    then (Ok [notes_properties; nameless_properties], w)
    else (Raise not_found, w);
  new_ai_client _ w := (Ok tt, w);
  datetime_now w := ("2024-02-01 10:00:00", w);
  workbook_save _ _ w := (Ok tt, w);
  new_sheet_title _ title := title;
|}.

(** A text file that holds two spaces. *)
Definition blank_file : FileInfo :=
  {| name := "blank.txt"; server_relative_url := "/sites/docs/blank.txt";
     size := 2; time_created := ""; time_modified := ""; extension := ".txt" |}.

Definition blank_start : state World :=
  State {| store := <["/sites/docs/blank.txt" := list_byte_of_string "  "]> ∅;
           replies := [] |} [].

Definition one_error : ProcessingError :=
  {| e_filename := "gone.txt"; error_type := CONTENT_EXTRACTION_FAILED;
     error_message := "404 Client Error: Not Found" |}.

Definition notes_record : AnalysisRecord :=
  record_of txt_file {| a_title := PyStr "Notes"; a_summary := PyStr "Some notes." |}.
End Demo.

(* ================================================================== *)
(** * Facts about Python strings *)

Section PyStrFacts.
Import PyStr.
Implicit Types (s t : string) (c : ascii) (n : nat).

Lemma append_String c s t : String c s +:+ t = String c (s +:+ t).
Proof. reflexivity. Qed.

Lemma append_empty_l s : "" +:+ s = s.
Proof. reflexivity. Qed.

Lemma append_empty_r s : s +:+ "" = s.
Proof. induction s as [|c s IH]; [done|]. by rewrite append_String, IH. Qed.

Lemma append_assoc s t u : (s +:+ t) +:+ u = s +:+ t +:+ u.
Proof. induction s as [|c s IH]; [done|]. by rewrite !append_String, IH. Qed.

Lemma length_append s t :
  String.length (s +:+ t) = String.length s + String.length t.
Proof. induction s as [|c s IH]; [done|]. rewrite append_String. simpl. by rewrite IH. Qed.

Lemma take_drop n s : take n s +:+ drop n s = s.
Proof.
  revert s. induction n as [|n IH]; intros [|c s]; try done.
  simpl. by rewrite append_String, IH.
Qed.

Lemma length_take n s : n ≤ String.length s → String.length (take n s) = n.
Proof.
  revert s. induction n as [|n IH]; intros [|c s] Hn; simpl in *; try done; try lia.
  rewrite IH; [done | lia].
Qed.

Lemma clamp_within s (i : Z) :
  (0 ≤ i ≤ len s)%Z → clamp s i = Z.to_nat i.
Proof.
  intros Hi. unfold clamp.
  destruct (Z.ltb_spec i 0); [lia|]. by rewrite Z.min_l by lia.
Qed.

(** A string that starts with a character that is no white space keeps
    it when stripped. *)
Lemma strip_String c s :
  isspace c = false → strip (String c s) = String c (rstrip s).
Proof.
  intros Hc. unfold strip. simpl. rewrite Hc. simpl. rewrite Hc.
  by rewrite andb_false_r.
Qed.
End PyStrFacts.

Lemma has_text_String c s : PyStr.isspace c = false → has_text (String c s) = true.
Proof.
  intros Hc. unfold has_text. rewrite (strip_String _ _ Hc).
  unfold PyStr.len. simpl. apply Z.ltb_lt. lia.
Qed.

(* ================================================================== *)
(** * The document analyzer *)

Section AnalyzerFacts.
Context {World : Type} `{!Externals World}.
Implicit Types (self : AIAnalyzer) (st : state World).

(** [analyze_document] in closed form: it always returns, and falls back
    on [analysis_of_error] whenever a step of the [try] branch raises. *)
Lemma analyze_document_run self filename content max_content_length st :
  analyze_document self filename content max_content_length st =
    (Ok match (reply_to self filename content max_content_length st).1 with
        | Raise e => analysis_of_error filename e
        | Ok choices =>
            match parse_response choices ≫= analysis_of_object filename with
            | Ok analysis => analysis
            | Raise e => analysis_of_error filename e
            end
        end,
     state_after self filename content max_content_length st).
Proof.
  unfold analyze_document, state_after, reply_to, try_catch, mbind, M_bind, bind,
    do_chat_completions_create, lift, ret.
  destruct (chat_completions_create _ _ _ _ _ _) as [[choices|e] w]; simpl; [|done].
  destruct (parse_response choices) as [parsed|e]; simpl; [|done].
  by destruct (analysis_of_object filename parsed).
Qed.

Lemma analyze_document_returns self filename content max_content_length st :
  ∃ analysis,
    analyze_document self filename content max_content_length st =
      (Ok analysis, state_after self filename content max_content_length st).
Proof. rewrite analyze_document_run. eauto. Qed.
End AnalyzerFacts.

Section ContractA.
Context {World : Type} `{!Externals World}.
Implicit Types (self : AIAnalyzer) (st : state World).

(** C3, as amended.  [analyze_document] never raises.  When the
    text-generation call fails, or its response cannot be read and parsed
    into a JSON object, the title is the filename and the summary is
    "Error during analysis: " followed by the message of the error, so it
    is not empty.  When an object is parsed, the title is its field
    "title", or the filename when the object has no such field, and the
    summary is its field "summary", or "Unable to generate summary" when
    the object has no such field: each field falls back on its own. *)
Theorem analyze_document_contract self filename content max_content_length st :
  ∃ analysis,
    analyze_document self filename content max_content_length st =
      (Ok analysis, state_after self filename content max_content_length st) ∧
    (∀ e,
       parsed_object (reply_to self filename content max_content_length st).1 = Raise e →
       a_title analysis = PyStr filename ∧
       a_summary analysis = PyStr ("Error during analysis: " +:+ str_of_exn e) ∧
       "Error during analysis: " +:+ str_of_exn e ≠ "") ∧
    (∀ entries,
       parsed_object (reply_to self filename content max_content_length st).1 = Ok entries →
       a_title analysis = from_option id (PyStr filename) (entries !! "title") ∧
       a_summary analysis =
         from_option id (PyStr "Unable to generate summary") (entries !! "summary")).
Proof.
  eexists. split; [apply analyze_document_run|].
  unfold parsed_object.
  destruct (reply_to _ _ _ _ _).1 as [choices|e0]; simpl.
  2: { split; [by intros e [= ->] | by intros entries [=]]. }
  destruct (parse_response choices) as [parsed|e0]; simpl.
  2: { split; [by intros e [= ->] | by intros entries [=]]. }
  destruct parsed; simpl; (split; [by intros e [= <-] | by intros d [= <-]]).
Qed.

(** C8.  For a maximum that is not negative, [analyze_document] makes one
    call to the text-generation service, and the document text in the
    prompt of that call is [truncate_content content max_content_length]:
    for a text longer than the maximum, its first [max_content_length]
    characters followed by the truncation marker; for a text that is not
    longer, the text itself.  The default maximum is 8000. *)
Theorem analyze_document_truncates self filename content max_content_length st :
  (0 ≤ max_content_length)%Z →
  let sent := truncate_content content max_content_length in
  calls (analyze_document self filename content max_content_length st).2 =
    calls st ++
      [CallChatCompletion (model self) Prompt.system_content
         (Prompt.head +:+ filename +:+ Prompt.middle +:+ sent +:+ Prompt.tail)
         Prompt.temperature Prompt.max_tokens] ∧
  ((max_content_length < PyStr.len content)%Z →
     ∃ kept dropped,
       content = kept +:+ dropped ∧
       PyStr.len kept = max_content_length ∧
       sent = kept +:+ PyStr.newline +:+ "... [content truncated]") ∧
  ((PyStr.len content ≤ max_content_length)%Z → sent = content) ∧
  DEFAULT_MAX_CONTENT_LENGTH = 8000%Z.
Proof.
  intros Hmax sent. split; [by rewrite analyze_document_run|].
  subst sent. unfold truncate_content. split; [|split; [|done]]; intros Hlen.
  - destruct (Z.ltb_spec max_content_length (PyStr.len content)); [|lia].
    exists (PyStr.take (Z.to_nat max_content_length) content),
           (PyStr.drop (Z.to_nat max_content_length) content).
    unfold PyStr.slice_to. rewrite clamp_within by lia.
    split; [by rewrite take_drop|]. split; [|done].
    unfold PyStr.len in *. rewrite length_take by lia. lia.
  - by destruct (Z.ltb_spec max_content_length (PyStr.len content)); [lia|].
Qed.
End ContractA.

(** C7.  [analyze_file_metadata] is a function of the filename and the
    extension alone: it takes no state, so it makes no call, and as a step
    of a computation it returns and leaves the world and the list of calls
    as they were.  Its title is the filename; its summary names the
    extension and says that content analysis is not available.  For
    "report.xyz" and ".xyz" the summary contains ".xyz". *)
Theorem analyze_file_metadata_contract (self : AIAnalyzer) (filename extension : string) :
  (∀ (World : Type) (st : state World),
     ret (analyze_file_metadata self filename extension) st =
       (Ok (analyze_file_metadata self filename extension), st)) ∧
  a_title (analyze_file_metadata self filename extension) = PyStr filename ∧
  (∃ summary,
     a_summary (analyze_file_metadata self filename extension) = PyStr summary ∧
     PyStr.contains summary ("File type: " +:+ extension) ∧
     PyStr.contains summary "Content analysis not available") ∧
  (∃ summary,
     a_summary (analyze_file_metadata self "report.xyz" ".xyz") = PyStr summary ∧
     PyStr.contains summary ".xyz").
Proof.
  split; [done|]. split; [done|]. split.
  - eexists. split; [done|]. split.
    + exists "", ". Content analysis not available for this file type.".
      by rewrite append_empty_l, append_assoc.
    + exists ("File type: " +:+ extension +:+ ". "), " for this file type.".
      by rewrite !append_assoc.
  - eexists. split; [done|]. by exists "File type: ", ". Content analysis not available for this file type.".
Qed.

(** A text of 12 characters and a maximum of 5. *)
Lemma analyze_document_truncates_witness :
  (0 ≤ 5)%Z ∧
  calls (analyze_document Fixture.ai_analyzer "a.txt" "Hello, world" 5
           (Fixture.start [])).2 =
    [CallChatCompletion "gpt-4o-mini" Prompt.system_content
       (Prompt.head +:+ "a.txt" +:+ Prompt.middle +:+
          ("Hello" +:+ PyStr.newline +:+ "... [content truncated]") +:+ Prompt.tail)
       Prompt.temperature Prompt.max_tokens].
Proof.
  split; [lia|].
  apply (analyze_document_truncates Fixture.ai_analyzer "a.txt" "Hello, world" 5
           (Fixture.start [])).
  lia.
Defined.

(** The service is out of reach: the call fails. *)
Lemma analyze_document_contract_witness :
  ∃ analysis,
    (analyze_document Fixture.ai_analyzer "a.txt" "hello" 8000 (Fixture.start [])).1 =
      Ok analysis ∧
    a_title analysis = PyStr "a.txt" ∧
    a_summary analysis = PyStr "Error during analysis: Connection error.".
Proof.
  destruct (analyze_document_contract Fixture.ai_analyzer "a.txt" "hello" 8000
              (Fixture.start [])) as (analysis & Hrun & Hfail & _).
  exists analysis. split; [by rewrite Hrun|].
  destruct (Hfail Fixture.connection_error) as (? & ? & _); [reflexivity|done].
Defined.

(** C3 as stated fails where it speaks of a field that is absent.  A parsed
    response with a title and no summary gives that title, not the filename;
    a parsed response with an empty summary and no title gives the empty
    summary. *)
Lemma analyze_document_absent_field_counterexample :
  ¬ (∀ (script : list (result (list (option string)))) (filename content : string)
       (entries : gmap string pyobj),
       parsed_object
         (reply_to Fixture.ai_analyzer filename content 8000 (Fixture.start script)).1
         = Ok entries →
       entries !! "title" = None ∨ entries !! "summary" = None →
       ∃ analysis st' summary,
         analyze_document Fixture.ai_analyzer filename content 8000
           (Fixture.start script) = (Ok analysis, st') ∧
         a_title analysis = PyStr filename ∧
         a_summary analysis = PyStr summary ∧ summary ≠ "").
Proof.
  intros Hclaim.
  destruct (Hclaim [Ok [Some Fixture.title_only_reply]] "a.txt" "hello"
              (<["title" := PyStr "Notes"]> ∅))
    as (analysis & st' & summary & Hrun & Htitle & _).
  - reflexivity.
  - right. reflexivity.
  - rewrite analyze_document_run in Hrun. injection Hrun as <- _.
    vm_compute in Htitle. discriminate Htitle.
Qed.

(** The same two inputs, evaluated. *)
Example analyze_document_title_only :
  (analyze_document Fixture.ai_analyzer "a.txt" "hello" 8000
     (Fixture.start [Ok [Some Fixture.title_only_reply]])).1 =
  Ok {| a_title := PyStr "Notes"; a_summary := PyStr "Unable to generate summary" |}.
Proof. reflexivity. Qed.

Example analyze_document_summary_only :
  (analyze_document Fixture.ai_analyzer "a.txt" "hello" 8000
     (Fixture.start [Ok [Some Fixture.summary_only_reply]])).1 =
  Ok {| a_title := PyStr "a.txt"; a_summary := PyStr "" |}.
Proof. reflexivity. Qed.

(* ================================================================== *)
(** * The text extractor *)

Section ExtractorFacts.
Context {World : Type} `{!Externals World}.
Implicit Types (sp_client : SharePointClient) (st : state World).

Lemma get_file_content_as_text_run sp_client url file_extension st :
  get_file_content_as_text sp_client url file_extension st =
    match download_file sp_client url st with
    | (Ok content_bytes, st') => (Ok (extract_text content_bytes file_extension), st')
    | (Raise e, st') => (Raise e, st')
    end.
Proof.
  unfold get_file_content_as_text, extract_text, mbind, M_bind, bind.
  destruct (download_file sp_client url st) as [[content_bytes|e] st']; [|done].
  repeat case_decide; done.
Qed.
End ExtractorFacts.

(* ================================================================== *)
(** * The batch processor *)

Section PipelineFacts.
Context {World : Type} `{!Externals World} `{!Settings}.
Implicit Types (sp_client : SharePointClient) (ai_analyzer : AIAnalyzer).
Implicit Types (file_info : FileInfo) (st : state World).
Implicit Types (records : list AnalysisRecord) (errors : list ProcessingError).

(** The body of the loop only appends to the two lists. *)
Lemma process_file_frame sp_client ai_analyzer file_info records errors st :
  process_file sp_client ai_analyzer file_info records errors st =
    let '(records', errors', st') :=
      process_file sp_client ai_analyzer file_info [] [] st in
    (records ++ records', errors ++ errors', st').
Proof.
  unfold process_file.
  destruct (get_file_content_as_text _ _ _ _) as [[text|e] st1].
  - destruct (has_text text).
    + destruct (analyze_document _ _ _ _ _) as [[analysis|e] st2];
        by rewrite ?app_nil_r.
    + unfold ret. by rewrite app_nil_r.
  - unfold ret. done.
Qed.

(** The body of the loop, case by case. *)
Lemma process_file_run sp_client ai_analyzer file_info st :
  process_file sp_client ai_analyzer file_info [] [] st =
    match get_file_content_as_text sp_client (server_relative_url file_info)
            (extension file_info) st with
    | (Ok text, st1) =>
        if has_text text then
          match analyze_document ai_analyzer (name file_info) text
                  DEFAULT_MAX_CONTENT_LENGTH st1 with
          | (Ok analysis, st2) => ([record_of file_info analysis], [], st2)
          | (Raise e, st2) => ([], [error_of file_info PROCESSING_FAILED e], st2)
          end
        else
          ([record_of file_info
              (analyze_file_metadata ai_analyzer (name file_info) (extension file_info))],
           [], st1)
    | (Raise e, st1) =>
        ([record_of file_info
            (analyze_file_metadata ai_analyzer (name file_info) (extension file_info))],
         [error_of file_info CONTENT_EXTRACTION_FAILED e], st1)
    end.
Proof.
  unfold process_file.
  destruct (get_file_content_as_text _ _ _ _) as [[text|e] st1]; [|done].
  destruct (has_text text); [|done].
  by destruct (analyze_document _ _ _ _ _) as [[analysis|e] st2].
Qed.

(** Every run of the body appends one record, made from the file, and at
    most one error, of the type "Content Extraction Failed". *)
Lemma process_file_shape sp_client ai_analyzer file_info st :
  ∃ analysis errors' st',
    process_file sp_client ai_analyzer file_info [] [] st =
      ([record_of file_info analysis], errors', st') ∧
    (errors' = [] ∨ ∃ e, errors' = [error_of file_info CONTENT_EXTRACTION_FAILED e]).
Proof.
  rewrite process_file_run.
  destruct (get_file_content_as_text _ _ _ _) as [[text|e] st1]; [|by eauto 10].
  destruct (has_text text); [|by eauto 10].
  destruct (analyze_document_returns ai_analyzer (name file_info) text
              DEFAULT_MAX_CONTENT_LENGTH st1) as [analysis ->].
  eauto 10.
Qed.

(** The loop appends to the two lists what [outputs] lists file by file. *)
Lemma process_loop_outputs sp_client ai_analyzer supported_files records errors st :
  process_loop sp_client ai_analyzer supported_files records errors st =
    (records ++ concat (outputs sp_client ai_analyzer supported_files st).*1,
     errors ++ concat (outputs sp_client ai_analyzer supported_files st).*2,
     (process_loop sp_client ai_analyzer supported_files [] [] st).2).
Proof.
  revert records errors st.
  induction supported_files as [|file_info rest IH]; intros records errors st; simpl.
  { by rewrite !app_nil_r. }
  rewrite process_file_frame.
  destruct (process_file _ _ _ [] [] st) as [[records' errors'] st'].
  rewrite IH, (IH records' errors'). simpl. by rewrite !app_assoc.
Qed.

(** The loop over two lists of files, one after the other. *)
Lemma process_loop_app sp_client ai_analyzer files1 files2 records errors st :
  process_loop sp_client ai_analyzer (files1 ++ files2) records errors st =
    let '(records1, errors1, st1) :=
      process_loop sp_client ai_analyzer files1 records errors st in
    process_loop sp_client ai_analyzer files2 records1 errors1 st1.
Proof.
  revert records errors st.
  induction files1 as [|file_info rest IH]; intros records errors st; simpl; [done|].
  destruct (process_file _ _ _ _ _ _) as [[records' errors'] st']. apply IH.
Qed.

Lemma process_loop_frame sp_client ai_analyzer supported_files records errors st :
  process_loop sp_client ai_analyzer supported_files records errors st =
    let '(records', errors', st') :=
      process_loop sp_client ai_analyzer supported_files [] [] st in
    (records ++ records', errors ++ errors', st').
Proof.
  rewrite process_loop_outputs.
  rewrite (process_loop_outputs _ _ _ [] []). done.
Qed.

Lemma outputs_shape sp_client ai_analyzer supported_files st :
  Forall2
    (λ file_info out,
       ∃ analysis,
         out.1 = [record_of file_info analysis] ∧
         (out.2 = [] ∨ ∃ e, out.2 = [error_of file_info CONTENT_EXTRACTION_FAILED e]))
    supported_files (outputs sp_client ai_analyzer supported_files st).
Proof.
  revert st. induction supported_files as [|file_info rest IH]; intros st; simpl.
  { constructor. }
  destruct (process_file_shape sp_client ai_analyzer file_info st)
    as (analysis & errors' & st' & -> & Herrors).
  constructor; [by exists analysis | apply IH].
Qed.
End PipelineFacts.

Section Pipeline.
Context {World : Type} `{!Externals World} `{!Settings}.
Implicit Types (sp_client : SharePointClient) (ai_analyzer : AIAnalyzer).
Implicit Types (file_info : FileInfo) (st : state World).

Lemma process_files_outputs sp_client ai_analyzer files st :
  (process_files sp_client ai_analyzer files st).1 =
    (concat (outputs sp_client ai_analyzer (filter supported files) st).*1,
     concat (outputs sp_client ai_analyzer (filter supported files) st).*2).
Proof. unfold process_files. by rewrite process_loop_outputs. Qed.

(** C1.  The records and the errors [process_files] returns are, in order,
    those of the supported files, file by file; what a supported file adds
    carries its name, and is exactly one record and no error of the type
    "Processing Failed", or no record and exactly one such error. *)
Theorem process_files_one_outcome sp_client ai_analyzer files st :
  let outs := outputs sp_client ai_analyzer (filter supported files) st in
  (process_files sp_client ai_analyzer files st).1.1 = concat outs.*1 ∧
  (process_files sp_client ai_analyzer files st).1.2 = concat outs.*2 ∧
  Forall2
    (λ file_info out,
       Forall (λ r, r_filename r = name file_info) out.1 ∧
       Forall (λ e, e_filename e = name file_info) out.2 ∧
       ((length out.1 = 1 ∧ count_errors PROCESSING_FAILED out.2 = 0) ∨
        (length out.1 = 0 ∧ count_errors PROCESSING_FAILED out.2 = 1)))
    (filter supported files) outs.
Proof.
  intros outs. rewrite process_files_outputs. do 2 (split; [done|]).
  eapply Forall2_impl; [apply outputs_shape|].
  intros file_info [records errors] (analysis & Hrecords & Herrors).
  simpl in *. subst records.
  split; [by repeat constructor|].
  destruct Herrors as [->|[e ->]].
  - split; [constructor|]. by left.
  - split; [by repeat constructor|]. by left.
Qed.

(** In fact no error of the type "Processing Failed" is ever recorded, and
    every supported file gets its record. *)
Lemma process_files_never_fails sp_client ai_analyzer files st :
  length (process_files sp_client ai_analyzer files st).1.1 =
    length (filter supported files) ∧
  count_errors PROCESSING_FAILED (process_files sp_client ai_analyzer files st).1.2 = 0.
Proof.
  rewrite process_files_outputs. simpl.
  generalize (outputs_shape sp_client ai_analyzer (filter supported files) st).
  generalize (outputs sp_client ai_analyzer (filter supported files) st).
  generalize (filter supported files).
  intros l outs Hshape. unfold count_errors.
  induction Hshape as [|file_info [records errors] l outs (analysis & Hr & He) _ IH];
    [done|].
  simpl in Hr, He. subst records. destruct IH as [IH1 IH2].
  rewrite !fmap_cons, !concat_cons. simpl fst. simpl snd. split.
  - rewrite length_app, IH1. done.
  - rewrite filter_app, length_app, IH2.
    by destruct He as [->|[e ->]].
Qed.

(** C5.  A file whose extension is not in the list of supported types, or
    whose size is above the ceiling, changes nothing: with it or without
    it in the input, [process_files] returns the same records and the same
    errors and leaves the same state, so the same calls. *)
Theorem process_files_skips_unsupported sp_client ai_analyzer before file_info after st :
  extension file_info ∉ Config.SUPPORTED_FILE_TYPES ∨
    (MAX_FILE_SIZE_MB * 1024 * 1024 < size file_info)%Z →
  process_files sp_client ai_analyzer (before ++ file_info :: after) st =
    process_files sp_client ai_analyzer (before ++ after) st.
Proof.
  intros Hno. unfold process_files.
  rewrite !filter_app, filter_cons_False; [done|].
  unfold supported. intros [Hext Hsize]. destruct Hno; [done|lia].
Qed.

(** C4.  When fetching the text of a supported file raises,
    [process_files] appends the error "Content Extraction Failed" with
    the message of the exception, makes the record from the metadata
    alone, and goes on with the next file from the state the failed fetch
    left: record and error of the same file are both in the output. *)
Theorem process_files_extraction_failure sp_client ai_analyzer before file_info after
    st records0 errors0 st0 e st1 :
  supported file_info →
  process_files sp_client ai_analyzer before st = (records0, errors0, st0) →
  get_file_content_as_text sp_client (server_relative_url file_info)
    (extension file_info) st0 = (Raise e, st1) →
  ∃ records2 errors2 st2,
    process_files sp_client ai_analyzer after st1 = (records2, errors2, st2) ∧
    process_files sp_client ai_analyzer (before ++ file_info :: after) st =
      (records0 ++
         record_of file_info
           (analyze_file_metadata ai_analyzer (name file_info) (extension file_info))
         :: records2,
       errors0 ++ error_of file_info CONTENT_EXTRACTION_FAILED e :: errors2,
       st2).
Proof.
  intros Hsupported Hbefore Hraise. unfold process_files in *.
  destruct (process_loop sp_client ai_analyzer (filter supported after) [] [] st1)
    as [[records2 errors2] st2] eqn:Hafter.
  exists records2, errors2, st2. split; [done|].
  rewrite filter_app, filter_cons_True by done.
  rewrite process_loop_app, Hbefore. simpl.
  rewrite process_file_frame, process_file_run, Hraise.
  rewrite process_loop_frame, Hafter.
  by rewrite <-!app_assoc.
Qed.

(** C6.  The filenames of the records are the names of the supported
    files, in the order of the input and as many times as they occur;
    the filenames of the errors are the names of some of the input files,
    in the order of the input. *)
Theorem process_files_order sp_client ai_analyzer files st :
  filter supported files `sublist_of` files ∧
  r_filename <$> (process_files sp_client ai_analyzer files st).1.1 =
    name <$> filter supported files ∧
  ∃ failed,
    failed `sublist_of` files ∧
    e_filename <$> (process_files sp_client ai_analyzer files st).1.2 = name <$> failed.
Proof.
  split; [apply sublist_filter|].
  rewrite process_files_outputs. simpl.
  assert (∀ l st,
    r_filename <$> concat (outputs sp_client ai_analyzer l st).*1 = name <$> l ∧
    ∃ failed, failed `sublist_of` l ∧
      e_filename <$> concat (outputs sp_client ai_analyzer l st).*2 = name <$> failed)
    as Hloop.
  { clear. intros l. induction l as [|file_info rest IH]; intros st; simpl.
    { split; [done|]. by exists []. }
    destruct (process_file_shape sp_client ai_analyzer file_info st)
      as (analysis & errors' & st' & -> & Herrors).
    destruct (IH st') as (IHr & failed & Hsub & IHe).
    rewrite !fmap_cons, !concat_cons, !fmap_app. simpl fst. simpl snd.
    rewrite IHr, IHe. split; [done|].
    destruct Herrors as [->|[e ->]].
    - exists failed. split; [by apply sublist_cons|done].
    - exists (file_info :: failed). split; [by apply sublist_skip|done]. }
  destruct (Hloop (filter supported files) st) as (Hr & failed & Hsub & He).
  split; [done|]. exists failed. split; [|done].
  etrans; [done|]. apply sublist_filter.
Qed.
End Pipeline.

Section Extraction.
Context {World : Type} `{!Externals World}.
Implicit Types (sp_client : SharePointClient) (ai_analyzer : AIAnalyzer).
Implicit Types (file_info : FileInfo) (st : state World).

(** C10.  [get_file_content_as_text] raises exactly when [download_file]
    raises, with the same exception.  When the download succeeds and the
    bytes cannot be decoded as a PDF document (for ".pdf") or as a DOCX
    document (for ".docx" and ".doc"), it returns the bracketed error
    message as the text; that text is not blank, so the body of the loop
    of [process_files] sends it to [analyze_document] as the content of
    the file, appends the record made from that analysis, and appends no
    error. *)
Theorem decode_failure_is_text sp_client ai_analyzer file_info st :
  (∀ e st',
     get_file_content_as_text sp_client (server_relative_url file_info)
       (extension file_info) st = (Raise e, st') ↔
     download_file sp_client (server_relative_url file_info) st = (Raise e, st')) ∧
  (∀ content_bytes st' e text,
     download_file sp_client (server_relative_url file_info) st = (Ok content_bytes, st') →
     (extension file_info = ".pdf" ∧ pdf_page_texts content_bytes = Raise e ∧
        text = "[Error extracting PDF text: " +:+ str_of_exn e +:+ "]") ∨
     (extension file_info ∈ [".docx"; ".doc"] ∧
        docx_paragraph_texts content_bytes = Raise e ∧
        text = "[Error extracting DOCX text: " +:+ str_of_exn e +:+ "]") →
     get_file_content_as_text sp_client (server_relative_url file_info)
       (extension file_info) st = (Ok text, st') ∧
     text ≠ "" ∧ has_text text = true ∧
     ∃ analysis,
       analyze_document ai_analyzer (name file_info) text DEFAULT_MAX_CONTENT_LENGTH st' =
         (Ok analysis,
          state_after ai_analyzer (name file_info) text DEFAULT_MAX_CONTENT_LENGTH st') ∧
       process_file sp_client ai_analyzer file_info [] [] st =
         ([record_of file_info analysis], [],
          state_after ai_analyzer (name file_info) text DEFAULT_MAX_CONTENT_LENGTH st')).
Proof.
  split.
  - intros e st'. rewrite get_file_content_as_text_run.
    destruct (download_file _ _ _) as [[content_bytes|e'] st''].
    + split; intros [=].
    + split; by intros [= -> ->].
  - intros content_bytes st' e text Hdownload Hfailure.
    assert (extract_text content_bytes (extension file_info) = text ∧
            has_text text = true ∧ text ≠ "") as (Htext & Hhas & Hne).
    { unfold extract_text.
      destruct Hfailure as [(-> & Hpdf & ->)|(Hext & Hdocx & ->)].
      - simpl. unfold _extract_pdf_text. rewrite Hpdf.
        split; [done|]. split; [by apply has_text_String | done].
      - assert (extension file_info ≠ ".txt" ∧ extension file_info ≠ ".pdf")
          as [? ?].
        { apply list_elem_of_In in Hext. simpl in Hext.
          destruct Hext as [<-|[<-|[]]]; by split. }
        repeat case_decide; try done.
        unfold _extract_docx_text. rewrite Hdocx.
        split; [done|]. split; [by apply has_text_String | done]. }
    assert (get_file_content_as_text sp_client (server_relative_url file_info)
              (extension file_info) st = (Ok text, st')) as Hget.
    { by rewrite get_file_content_as_text_run, Hdownload, Htext. }
    split; [done|]. split; [done|]. split; [done|].
    destruct (analyze_document_returns ai_analyzer (name file_info) text
                DEFAULT_MAX_CONTENT_LENGTH st') as [analysis Hrun].
    exists analysis. split; [done|].
    by rewrite process_file_run, Hget, Hhas, Hrun.
Qed.
End Extraction.

(* ================================================================== *)
(** * The report *)

Section RoundingFacts.
Local Open Scope Z_scope.

Lemma round_half_even_near (n d : Z) :
  0 < d → Z.abs (2 * (d * PyFloat.round_half_even n d - n)) ≤ d.
Proof.
  intros Hd. unfold PyFloat.round_half_even.
  pose proof (Z.div_mod n d ltac:(lia)) as Hdiv.
  pose proof (Z.mod_pos_bound n d Hd) as Hmod.
  destruct (Z.compare_spec (2 * (n mod d)) d); [destruct (Z.even _)|..]; nia.
Qed.

(** [round(x, 2)] is a number of hundredths at most half a hundredth away
    from [x]. *)
Lemma round_2_near (x : Q) :
  (Qabs (PyFloat.round x 2 - x) <= 1 # 200)%Q ∧
  ∃ hundredths : Z, PyFloat.round x 2 = hundredths # 100.
Proof.
  split; [|by eexists].
  apply Qabs_Qle_condition. destruct x as [n d].
  pose proof (round_half_even_near (n * 100) (Z.pos d) ltac:(lia)) as Hnear.
  unfold PyFloat.round. simpl Qnum. simpl Qden.
  change (Z.to_pos (10 ^ Z.of_nat 2)) with 100%positive.
  change (10 ^ Z.of_nat 2) with 100.
  set (h := PyFloat.round_half_even (n * 100) (Z.pos d)) in *.
  unfold Qle, Qminus, Qplus, Qopp. simpl. rewrite Pos2Z.inj_mul. clearbody h. lia.
Qed.
End RoundingFacts.

Section ReportFacts.
Import ExcelGenerator.
Implicit Types (ws : worksheet) (result : AnalysisRecord).

Lemma write_result_size ws idx result :
  write_result ws idx result !! (header_row + idx, 5) = Some (size_cell result).
Proof.
  unfold write_result, set_cell.
  rewrite lookup_insert_ne by (intros [=]). apply lookup_insert_eq.
Qed.

Lemma write_result_other ws idx result row column :
  row ≠ header_row + idx →
  write_result ws idx result !! (row, column) = ws !! (row, column).
Proof.
  intros Hrow. unfold write_result, set_cell.
  rewrite !lookup_insert_ne; [done|intros [=]; by subst..].
Qed.

(** The rows above the next one to write are left as they are. *)
Lemma write_results_above ws idx analysis_results row column :
  row < header_row + idx →
  write_results ws idx analysis_results !! (row, column) = ws !! (row, column).
Proof.
  revert ws idx. induction analysis_results as [|result rest IH]; intros ws idx Hrow;
    simpl; [done|].
  rewrite IH by lia. apply write_result_other. lia.
Qed.

Lemma write_results_size ws idx analysis_results i result :
  analysis_results !! i = Some result →
  write_results ws idx analysis_results !! (header_row + (idx + i), 5) =
    Some (size_cell result).
Proof.
  revert ws idx i.
  induction analysis_results as [|first rest IH]; intros ws idx i Hi; [done|].
  change (write_results ws idx (first :: rest))
    with (write_results (write_result ws idx first) (S idx) rest).
  destruct i as [|i]; simpl in Hi.
  - injection Hi as ->. rewrite write_results_above by lia.
    rewrite Nat.add_0_r. apply write_result_size.
  - rewrite <-(IH (write_result ws idx first) (S idx) i Hi).
    do 3 f_equal. lia.
Qed.
End ReportFacts.

Section Report.
Context {World : Type} `{!Externals World} `{!Settings}.
Implicit Types (sp_client : SharePointClient) (ai_analyzer : AIAnalyzer).
Implicit Types (st : state World) (ws : worksheet).

(** The records are made from the supported files, one from each. *)
Lemma process_files_records sp_client ai_analyzer files st :
  Forall2 (λ file_info r, ∃ analysis, r = record_of file_info analysis)
    (filter supported files) (process_files sp_client ai_analyzer files st).1.1.
Proof.
  rewrite process_files_outputs. simpl.
  generalize (outputs_shape sp_client ai_analyzer (filter supported files) st).
  generalize (outputs sp_client ai_analyzer (filter supported files) st).
  generalize (filter supported files).
  intros l outs Hshape.
  induction Hshape as [|file_info [records errors] l outs (analysis & Hr & _) _ IH];
    [constructor|].
  simpl in Hr. subst records. rewrite fmap_cons, concat_cons. simpl.
  constructor; [by exists analysis | done].
Qed.

(** C9.  The record at a position of the output of [process_files] has
    the size of the supported file at that position, in bytes.  For a size
    from 0 up to 2^53, where the arithmetic of [PyFloat] is that of the
    floats, the cell of the column "File Size (KB)" of its row of the report
    holds [round(size / 1024, 2)]: a number of hundredths at most half a
    hundredth away from the size divided by 1024.  For 2048 bytes it is
    2.00. *)
Theorem report_size_in_kibibytes sp_client ai_analyzer files st ws
    sharepoint_url folder_path now i result :
  let records := (process_files sp_client ai_analyzer files st).1.1 in
  let shown := PyFloat.round (PyFloat.truediv (r_size result) 1024) 2 in
  records !! i = Some result →
  (0 ≤ r_size result < 2 ^ 53)%Z →
  (∃ file_info,
     filter supported files !! i = Some file_info ∧
     r_size result = size file_info) ∧
  ExcelGenerator.create_report ws records sharepoint_url folder_path now
    !! (ExcelGenerator.header_row + S i, 5) = Some (CellFloat shown) ∧
  (Qabs (shown - inject_Z (r_size result) / 1024) <= 1 # 200)%Q ∧
  (∃ hundredths : Z, shown = hundredths # 100) ∧
  PyFloat.round (PyFloat.truediv 2048 1024) 2 = 200 # 100 ∧
  (200 # 100 == 2)%Q.
Proof.
  intros records shown Hi _. split; [|split; [|split; [|split; [|split]]]].
  - destruct (Forall2_lookup_r _ _ _ _ _
                (process_files_records sp_client ai_analyzer files st) Hi)
      as (file_info & Hfile & analysis & ->).
    by exists file_info.
  - unfold ExcelGenerator.create_report.
    apply (write_results_size _ 1 records i result Hi).
  - apply round_2_near.
  - apply round_2_near.
  - reflexivity.
  - reflexivity.
Qed.
End Report.

(* ================================================================== *)
(** * The examples *)

Section Examples.
Import Fixture.

Example strip_example :
  PyStr.strip (" " +:+ PyStr.newline +:+ "a b " +:+ PyStr.newline) = "a b".
Proof. reflexivity. Qed.

Example split_example :
  PyStr.split "``a```b``````" "```" = ["``a"; "b"; ""; ""].
Proof. reflexivity. Qed.

Example slice_example :
  PyStr.slice_to "abcdef" 3 = "abc" ∧ PyStr.slice_to "abcdef" (-2) = "abcd" ∧
  PyStr.slice_to "abc" 8 = "abc" ∧ PyStr.slice_from "json{}" 4 = "{}".
Proof. by repeat split. Qed.

(** A reply inside a Markdown code fence with the tag [json]. *)
Example unfence_example :
  unfence ("```json" +:+ PyStr.newline +:+ full_reply +:+ PyStr.newline +:+ "```") =
    Ok full_reply.
Proof. reflexivity. Qed.

Example analyze_document_fenced :
  (analyze_document ai_analyzer "a.txt" "hello" 8000
     (start [Ok [Some ("```json" +:+ PyStr.newline +:+ full_reply +:+
                       PyStr.newline +:+ "```")]])).1 =
  Ok {| a_title := PyStr "Notes"; a_summary := PyStr "Some notes." |}.
Proof. reflexivity. Qed.

(** A file listed twice is processed twice. *)
Example process_files_duplicates :
  r_filename <$>
    (process_files sp_client ai_analyzer [txt_file; bin_file; txt_file]
       (start [good_reply; good_reply])).1.1 = ["notes.txt"; "notes.txt"].
Proof. reflexivity. Qed.

(** A client that was never connected: the download raises before any
    call is made, and the file is analysed from its metadata. *)
Example process_files_unconnected :
  process_files sp_client_unconnected ai_analyzer [txt_file] (start []) =
    ([record_of txt_file (analyze_file_metadata ai_analyzer "notes.txt" ".txt")],
     [error_of txt_file CONTENT_EXTRACTION_FAILED
        (RuntimeError "Not connected to SharePoint. Call connect() first.")],
     start []).
Proof. reflexivity. Qed.

(** C2, on the code.  The batch of the specification: a text file of 100
    bytes, a PDF file whose bytes are no PDF document, and a ".bin" file.
    Two records and no error come out.  The record of the PDF file is not
    the one [analyze_file_metadata] makes: its title and summary are what
    the text-generation service answered when it was sent the bracketed
    error message as the content of the document. *)
Theorem process_files_corrupt_pdf :
  let out :=
    process_files sp_client ai_analyzer [txt_file; pdf_file; bin_file]
      (start [good_reply; good_reply]) in
  pdf_page_texts pdf_bytes = Raise pdf_error ∧
  out.1.1 =
    [record_of txt_file {| a_title := PyStr "Notes"; a_summary := PyStr "Some notes." |};
     record_of pdf_file {| a_title := PyStr "Notes"; a_summary := PyStr "Some notes." |}] ∧
  out.1.2 = [] ∧
  (record_of pdf_file (analyze_file_metadata ai_analyzer "broken.pdf" ".pdf")
     ∉ out.1.1) ∧
  calls out.2 !! 3 =
    Some (CallChatCompletion "gpt-4o-mini" Prompt.system_content
            (Prompt.user_content "broken.pdf"
               "[Error extracting PDF text: EOF marker not found]")
            Prompt.temperature Prompt.max_tokens).
Proof.
  intros out.
  assert (out =
    ([record_of txt_file {| a_title := PyStr "Notes"; a_summary := PyStr "Some notes." |};
      record_of pdf_file {| a_title := PyStr "Notes"; a_summary := PyStr "Some notes." |}],
     [], out.2)) as Hout by (vm_compute; reflexivity).
  split; [done|]. split; [by rewrite Hout|]. split; [by rewrite Hout|]. split.
  - rewrite Hout. simpl. intros Hin. apply list_elem_of_In in Hin.
    destruct Hin as [[=]|[[=]|[]]].
  - vm_compute. reflexivity.
Qed.

Lemma process_files_skips_unsupported_witness :
  process_files sp_client ai_analyzer ([txt_file] ++ bin_file :: [pdf_file])
    (start [good_reply; good_reply]) =
  process_files sp_client ai_analyzer ([txt_file] ++ [pdf_file])
    (start [good_reply; good_reply]).
Proof.
  apply (process_files_skips_unsupported sp_client ai_analyzer
           [txt_file] bin_file [pdf_file]).
  left. apply (bool_decide_unpack _). vm_compute. exact I.
Defined.

Lemma process_files_extraction_failure_witness :
  ∃ st2,
    process_files sp_client ai_analyzer ([] ++ missing_file :: [txt_file])
      (start [good_reply]) =
    ([] ++
       record_of missing_file (analyze_file_metadata ai_analyzer "gone.txt" ".txt")
       :: [record_of txt_file
             {| a_title := PyStr "Notes"; a_summary := PyStr "Some notes." |}],
     [] ++ error_of missing_file CONTENT_EXTRACTION_FAILED not_found :: [],
     st2).
Proof.
  destruct (process_files_extraction_failure sp_client ai_analyzer
              [] missing_file [txt_file] (start [good_reply]) [] []
              (start [good_reply]) not_found
              (State {| store := the_store; replies := [good_reply] |}
                 [CallReadFile site "/sites/docs/gone.txt"]))
    as (records2 & errors2 & st2 & Hafter & Hall).
  - apply (bool_decide_unpack _). vm_compute. exact I.
  - reflexivity.
  - vm_compute. reflexivity.
  - exists st2. rewrite Hall. vm_compute in Hafter.
    injection Hafter as <- <- _. reflexivity.
Defined.

Lemma report_size_in_kibibytes_witness :
  ExcelGenerator.create_report ∅
    (process_files sp_client ai_analyzer [bin_file; kib_file] (start [good_reply])).1.1
    site "Shared Documents" "2024-02-01 10:00:00"
    !! (8, 5) = Some (CellFloat (200 # 100)).
Proof.
  apply (report_size_in_kibibytes sp_client ai_analyzer [bin_file; kib_file]
           (start [good_reply]) ∅ site "Shared Documents" "2024-02-01 10:00:00" 0
           (record_of kib_file
              {| a_title := PyStr "Notes"; a_summary := PyStr "Some notes." |})).
  - vm_compute. reflexivity.
  - simpl. lia.
Defined.

Lemma decode_failure_is_text_witness :
  get_file_content_as_text sp_client "/sites/docs/broken.pdf" ".pdf" (start []) =
    (Ok "[Error extracting PDF text: EOF marker not found]",
     State {| store := the_store; replies := [] |}
       [CallReadFile site "/sites/docs/broken.pdf"]).
Proof.
  apply (decode_failure_is_text sp_client ai_analyzer pdf_file (start [])
         ) with (content_bytes := pdf_bytes) (e := pdf_error).
  - vm_compute. reflexivity.
  - left. split; [reflexivity|]. split; reflexivity.
Defined.
End Examples.

(* ================================================================== *)
(** * Configuration and connection *)

Section ConfigFacts.
Context `{!Environ}.

Lemma truthy_str_and a b : truthy (str_and a b) = truthy a && truthy b.
Proof. unfold str_and. by destruct (truthy a) eqn:Ha; simpl; [|rewrite Ha]. Qed.

Lemma truthy_str_or a b : truthy (str_or a b) = truthy a || truthy b.
Proof. unfold str_or. by destruct (truthy a) eqn:Ha; simpl; [rewrite Ha|]. Qed.

(** What a configuration [Config.validate] accepts has. *)
Lemma validate_empty :
  validate = [] →
  truthy SHAREPOINT_SITE_URL = true ∧
  truthy SHAREPOINT_USERNAME && truthy SHAREPOINT_PASSWORD
  || truthy SHAREPOINT_CLIENT_ID && truthy SHAREPOINT_CLIENT_SECRET
     && truthy SHAREPOINT_TENANT_ID = true ∧
  truthy OPENAI_API_KEY
  || truthy AZURE_OPENAI_ENDPOINT && truthy AZURE_OPENAI_API_KEY
     && truthy AZURE_OPENAI_DEPLOYMENT = true.
Proof.
  unfold validate. rewrite !truthy_str_or, !truthy_str_and.
  set (site := truthy SHAREPOINT_SITE_URL).
  set (auth := truthy SHAREPOINT_USERNAME && _ || _).
  set (ai := truthy OPENAI_API_KEY || _).
  by destruct site, auth, ai.
Qed.

(** [Config.validate] reports each of its three errors exactly when the
    setting it names is missing, at most once and in a fixed order; so it
    returns the empty list exactly when the site URL is set, the username
    and password or the three Azure AD values are set, and the OpenAI key
    or the three Azure OpenAI values are set. *)
Theorem validate_reports :
  validate `sublist_of` [SITE_URL_NOT_SET; CREDENTIALS_NOT_SET; AI_CREDENTIALS_NOT_SET] ∧
  (SITE_URL_NOT_SET ∈ validate ↔ truthy SHAREPOINT_SITE_URL = false) ∧
  (CREDENTIALS_NOT_SET ∈ validate ↔
     truthy SHAREPOINT_USERNAME && truthy SHAREPOINT_PASSWORD
     || truthy SHAREPOINT_CLIENT_ID && truthy SHAREPOINT_CLIENT_SECRET
        && truthy SHAREPOINT_TENANT_ID = false) ∧
  (AI_CREDENTIALS_NOT_SET ∈ validate ↔
     truthy OPENAI_API_KEY
     || truthy AZURE_OPENAI_ENDPOINT && truthy AZURE_OPENAI_API_KEY
        && truthy AZURE_OPENAI_DEPLOYMENT = false) ∧
  (validate = [] ↔
     truthy SHAREPOINT_SITE_URL = true ∧
     truthy SHAREPOINT_USERNAME && truthy SHAREPOINT_PASSWORD
     || truthy SHAREPOINT_CLIENT_ID && truthy SHAREPOINT_CLIENT_SECRET
        && truthy SHAREPOINT_TENANT_ID = true ∧
     truthy OPENAI_API_KEY
     || truthy AZURE_OPENAI_ENDPOINT && truthy AZURE_OPENAI_API_KEY
        && truthy AZURE_OPENAI_DEPLOYMENT = true).
Proof.
  unfold validate. rewrite !truthy_str_or, !truthy_str_and.
  set (site := truthy SHAREPOINT_SITE_URL).
  set (auth := truthy SHAREPOINT_USERNAME && _ || _).
  set (ai := truthy OPENAI_API_KEY || _).
  destruct site, auth, ai; simpl.
  all: split; [by repeat first [apply sublist_nil | apply sublist_skip
                               | apply sublist_cons]|].
  all: repeat split; try done.
  all: try (intros Hin; apply list_elem_of_In in Hin; simpl in Hin;
            by intuition discriminate).
  all: try (intros _; apply list_elem_of_In; simpl; by auto).
  all: try (by intros (? & ? & ?)).
Qed.
End ConfigFacts.

Section Connection.
Context {World : Type} `{!Externals World} `{!Environ}.

(** A configuration [Config.validate] accepts is enough to connect without
    arguments: [connect] returns a client whose context is set for the site
    of the client, and from then on [download_file] does not raise on its
    own account; it returns or raises what the site does. *)
Theorem validated_connect (site : option string) :
  validate = [] →
  ∃ client,
    connect (SharePointClient_init site) None None = Ok client ∧
    site_url client = opt_or site SHAREPOINT_SITE_URL ∧
    ctx client = Some (site_url client) ∧
    ∀ url (st : state World),
      download_file client url st = do_sharepoint_read (site_url client) url st.
Proof.
  intros Hvalid. apply validate_empty in Hvalid as (_ & Hauth & _).
  assert (∀ client, ctx client = Some (site_url client) →
            ∀ url (st : state World),
              download_file client url st = do_sharepoint_read (site_url client) url st)
    as Hdownload.
  { intros client Hctx url st. unfold download_file, try_catch, raise. rewrite Hctx.
    by destruct (do_sharepoint_read _ _ _) as [[content|e] st']. }
  unfold connect. simpl. rewrite !truthy_str_and.
  destruct (truthy SHAREPOINT_USERNAME && truthy SHAREPOINT_PASSWORD) eqn:Hbasic.
  - eexists. split; [done|]. split; [done|]. split; [done|]. by apply Hdownload.
  - simpl in Hauth. apply andb_prop in Hauth as [Hid%andb_prop _].
    destruct Hid as [-> ->]. simpl.
    eexists. split; [done|]. split; [done|]. split; [done|]. by apply Hdownload.
Qed.

(** After [Config.validate] has accepted the configuration, the client
    [AIAnalyzer.__init__] makes has an API key that is not empty: the Azure
    OpenAI key when the three Azure OpenAI values are set, and the model is
    then the deployment, which is not empty either; the OpenAI key
    otherwise. *)
Theorem validated_ai_client :
  validate = [] →
  truthy (client_api_key AIAnalyzer_init.1) = true ∧
  (is_using_azure_openai = true →
     AIAnalyzer_init.1 =
       AzureOpenAI AZURE_OPENAI_API_KEY AZURE_OPENAI_API_VERSION AZURE_OPENAI_ENDPOINT ∧
     model AIAnalyzer_init.2 = AZURE_OPENAI_DEPLOYMENT ∧
     truthy AZURE_OPENAI_DEPLOYMENT = true) ∧
  (is_using_azure_openai = false →
     AIAnalyzer_init.1 = OpenAI OPENAI_API_KEY ∧ model AIAnalyzer_init.2 = OPENAI_MODEL).
Proof.
  intros Hvalid. apply validate_empty in Hvalid as (_ & _ & Hai).
  unfold AIAnalyzer_init, is_using_azure_openai in *.
  rewrite !truthy_str_and in *.
  destruct (truthy AZURE_OPENAI_ENDPOINT), (truthy AZURE_OPENAI_API_KEY) eqn:Hkey,
    (truthy AZURE_OPENAI_DEPLOYMENT), (truthy OPENAI_API_KEY) eqn:Hopenai;
    simpl in *; try done.
Qed.
End Connection.

(* ================================================================== *)
(** * Reading from the terminal *)

Section Terminal.
Implicit Types (stdin rest : list string) (default : option string).

Lemma ask_again_spec stdin value rest :
  ask_again stdin = (Ok value, rest) →
  ∃ blanks line,
    stdin = blanks ++ line :: rest ∧
    Forall (λ l, PyStr.strip l = "") blanks ∧
    value = PyStr.strip line ∧ value ≠ "".
Proof.
  induction stdin as [|first more IH]; simpl; [done|].
  destruct (truthy (PyStr.strip first)) eqn:Hfirst.
  - intros [= <- <-]. exists [], first. split; [done|]. split; [done|]. split; [done|].
    by destruct (PyStr.strip first).
  - intros (blanks & line & -> & Hblanks & -> & Hne)%IH.
    exists (first :: blanks), line. split; [done|]. split; [|done].
    constructor; [|done]. by destruct (PyStr.strip first).
Qed.

Lemma ask_again_eof stdin e rest :
  ask_again stdin = (Raise e, rest) →
  e = EOFError ∧ rest = [] ∧ Forall (λ l, PyStr.strip l = "") stdin.
Proof.
  induction stdin as [|first more IH]; simpl.
  { by intros [= <- <-]. }
  destruct (truthy (PyStr.strip first)) eqn:Hfirst; [done|].
  intros (-> & -> & Hblank)%IH. split; [done|]. split; [done|].
  constructor; [|done]. by destruct (PyStr.strip first).
Qed.

(** [get_user_input] never returns the empty string, whatever the default:
    it returns either the default, which is then not empty, or a line of
    the input stripped of its white space; and it only consumes lines from
    the front of the input. *)
Theorem get_user_input_not_empty prompt default stdin value rest :
  get_user_input prompt default stdin = (Ok value, rest) →
  value ≠ "" ∧
  (∃ read, stdin = read ++ rest ∧ read ≠ []) ∧
  (default = Some value ∨ ∃ line, line ∈ stdin ∧ value = PyStr.strip line).
Proof.
  assert (∀ stdin value rest,
            (match input stdin with
             | (Ok line, rest) =>
                 if truthy (PyStr.strip line) then (Ok (PyStr.strip line), rest)
                 else ask_again rest
             | (Raise e, rest) => (Raise e, rest)
             end) = (Ok value, rest) →
            value ≠ "" ∧ (∃ read, stdin = read ++ rest ∧ read ≠ []) ∧
            ∃ line, line ∈ stdin ∧ value = PyStr.strip line) as Hrequired.
  { clear. intros [|first more] value rest; simpl; [done|].
    destruct (truthy (PyStr.strip first)) eqn:Hfirst.
    - intros [= <- <-]. split; [by destruct (PyStr.strip first)|].
      split; [by exists [first]|]. exists first. split; [apply elem_of_cons; by left|done].
    - intros (blanks & line & -> & _ & -> & Hne)%ask_again_spec.
      split; [done|].
      split; [by exists (first :: blanks ++ [line]); simpl; rewrite <-app_assoc|].
      exists line. split; [|done].
      apply elem_of_cons. right. apply elem_of_app. right. apply elem_of_cons. by left. }
  unfold get_user_input. destruct default as [default_value|].
  - destruct (truthy default_value) eqn:Hdefault.
    + destruct stdin as [|first more]; simpl; [done|].
      intros [= <- <-]. destruct (truthy (PyStr.strip first)) eqn:Hfirst.
      * split; [by destruct (PyStr.strip first)|]. split; [by exists [first]|].
        right. exists first. split; [apply elem_of_cons; by left|done].
      * split; [by destruct default_value|]. split; [by exists [first]|]. by left.
    + intros Hrun. destruct (Hrequired _ _ _ Hrun) as (? & ? & ?). by eauto.
  - intros Hrun. destruct (Hrequired _ _ _ Hrun) as (? & ? & ?). by eauto.
Qed.

(** Without a default, [get_user_input] skips the blank lines and returns
    the first line that is not blank, stripped; it raises [EOFError] when
    the input ends before such a line, and only then. *)
Theorem get_user_input_required prompt stdin :
  match get_user_input prompt None stdin with
  | (Ok value, rest) =>
      ∃ blanks line,
        stdin = blanks ++ line :: rest ∧
        Forall (λ l, PyStr.strip l = "") blanks ∧
        value = PyStr.strip line ∧ value ≠ ""
  | (Raise e, rest) =>
      e = EOFError ∧ rest = [] ∧ Forall (λ l, PyStr.strip l = "") stdin
  end.
Proof.
  unfold get_user_input. destruct stdin as [|first more]; simpl; [done|].
  destruct (truthy (PyStr.strip first)) eqn:Hfirst.
  - exists [], first. split; [done|]. split; [done|]. split; [done|].
    by destruct (PyStr.strip first).
  - destruct (ask_again more) as [[value|e] rest] eqn:Hagain.
    + apply ask_again_spec in Hagain as (blanks & line & -> & Hblanks & -> & Hne).
      exists (first :: blanks), line. split; [done|]. split; [|done].
      constructor; [|done]. by destruct (PyStr.strip first).
    + apply ask_again_eof in Hagain as (-> & -> & Hblank).
      split; [done|]. split; [done|]. constructor; [|done].
      by destruct (PyStr.strip first).
Qed.
End Terminal.

(* ================================================================== *)
(** * File names and extensions *)

Section SplitextFacts.
Import OsPath.
Context `{!Platform}.
Implicit Types (s t p : string) (c a : ascii).

Lemma has_char_append c s t : has_char c (s +:+ t) = has_char c s || has_char c t.
Proof.
  induction s as [|a s IH]; [done|]. rewrite append_String. simpl.
  by rewrite IH, orb_assoc.
Qed.

Lemma has_char_drop c n s : has_char c s = false → has_char c (PyStr.drop n s) = false.
Proof.
  revert s. induction n as [|n IH]; intros [|a s]; simpl; try done.
  intros [_ Hs]%orb_false_elim. by apply IH.
Qed.

Lemma rfind_from_none c s i found :
  has_char c s = false → rfind_from c s i found = found.
Proof.
  revert i found. induction s as [|a s IH]; intros i found; simpl; [done|].
  intros [Ha Hs]%orb_false_elim. apply bool_decide_eq_false in Ha.
  rewrite IH by done. by rewrite decide_False.
Qed.

(** [rfind] gives the last occurrence: the string from there on starts with
    the character and has no other. *)
Lemma rfind_from_spec c s i found :
  (has_char c s = false ∧ rfind_from c s i found = found) ∨
  ∃ (n : nat) tail,
    rfind_from c s i found = (i + Z.of_nat n)%Z ∧ n < String.length s ∧
    PyStr.drop n s = String c tail ∧ has_char c tail = false.
Proof.
  revert i found. induction s as [|a s IH]; intros i found; simpl; [by left|].
  destruct (IH (i + 1)%Z (if decide (a = c) then i else found))
    as [[Hnone ->]|(n & tail & -> & Hn & Hdrop & Htail)].
  - destruct (decide (a = c)) as [->|Hne].
    + right. exists 0, s. rewrite Z.add_0_r. split; [done|]. split; [lia|]. done.
    + left. rewrite Hnone, orb_false_r. split; [|done]. by apply bool_decide_eq_false.
  - right. exists (S n), tail. split; [lia|]. split; [lia|]. done.
Qed.

Lemma rfind_spec c s :
  (has_char c s = false ∧ rfind s c = (-1)%Z) ∨
  ∃ (n : nat) tail,
    rfind s c = Z.of_nat n ∧ n < String.length s ∧
    PyStr.drop n s = String c tail ∧ has_char c tail = false.
Proof.
  unfold rfind. destruct (rfind_from_spec c s 0 (-1)) as [?|(n & tail & -> & ?)];
    [by left|right]. by exists n, tail.
Qed.

Lemma rfind_last c s tail :
  has_char c tail = false → rfind (s +:+ String c tail) c = Z.of_nat (String.length s).
Proof.
  intros Htail. unfold rfind.
  assert (∀ i found,
            rfind_from c (s +:+ String c tail) i found =
              (i + Z.of_nat (String.length s))%Z) as Hgo; [|by rewrite Hgo].
  induction s as [|a s IH]; intros i found.
  - rewrite append_empty_l. simpl. rewrite decide_True by done.
    rewrite rfind_from_none by done. lia.
  - rewrite append_String. simpl. rewrite IH. lia.
Qed.

Lemma drop_drop n m s : PyStr.drop n (PyStr.drop m s) = PyStr.drop (m + n) s.
Proof.
  revert s. induction m as [|m IH]; intros s; [done|].
  destruct s as [|a s]; simpl; [by destruct n|]. apply IH.
Qed.

Lemma drop_length_append s t : PyStr.drop (String.length s) (s +:+ t) = t.
Proof. induction s as [|a s IH]; [by destruct t|]. by rewrite append_String. Qed.

Lemma take_length_append s t : PyStr.take (String.length s) (s +:+ t) = s.
Proof.
  induction s as [|a s IH]; [by destruct t|]. rewrite append_String. simpl. by rewrite IH.
Qed.

Lemma slice_at (n : nat) s :
  n ≤ String.length s →
  PyStr.slice_to s (Z.of_nat n) = PyStr.take n s ∧
  PyStr.slice_from s (Z.of_nat n) = PyStr.drop n s.
Proof.
  intros Hn. unfold PyStr.slice_to, PyStr.slice_from.
  rewrite clamp_within by (unfold PyStr.len; lia). by rewrite Nat2Z.id.
Qed.

(** What [splitext] returns: the path whole and no extension, or the path
    cut before its last dot. *)
Lemma splitext_cases p :
  splitext p = (p, "") ∨
  ∃ (n : nat) tail,
    rfind p extsep = Z.of_nat n ∧ n < String.length p ∧
    (match altsep with
     | Some alt => Z.max (rfind p sep) (rfind p alt)
     | None => rfind p sep
     end < Z.of_nat n)%Z ∧
    PyStr.drop n p = String extsep tail ∧ has_char extsep tail = false ∧
    splitext p = (PyStr.take n p, String extsep tail).
Proof.
  unfold splitext.
  set (sepIndex := match altsep with Some _ => _ | None => _ end).
  destruct (Z.ltb_spec sepIndex (rfind p extsep)) as [Hlt|]; [|by left].
  destruct (only_dots _ _ _); [by left|]. right.
  destruct (rfind_spec extsep p) as [[_ Hnone]|(n & tail & Hn & Hlen & Hdrop & Htail)].
  { exfalso. assert (-1 ≤ sepIndex)%Z; [|lia]. subst sepIndex.
    destruct altsep; [etrans; [|apply Z.le_max_l]|];
      (destruct (rfind_spec sep p) as [[_ ->]|(? & ? & -> & _)]; lia). }
  exists n, tail. rewrite Hn in *. split; [done|]. split; [done|]. split; [done|].
  split; [done|]. split; [done|].
  destruct (slice_at n p ltac:(lia)) as [-> ->]. by rewrite Hdrop.
Qed.

(** A separator that is not in [p] from the index after its last occurrence
    is not in a later part of [p] either. *)
Lemma no_char_after c p (n : nat) tail :
  (rfind p c < Z.of_nat n)%Z → PyStr.drop n p = String extsep tail →
  has_char c tail = false.
Proof.
  intros Hlt Hdrop.
  destruct (rfind_spec c p) as [[Hnone _]|(m & tail' & Hm & _ & Hdrop' & Htail')].
  - apply (has_char_drop _ n) in Hnone. rewrite Hdrop in Hnone. simpl in Hnone.
    by apply orb_false_elim in Hnone as [_ ?].
  - assert (m < n) as Hmn by lia.
    assert (PyStr.drop (S m + (n - S m)) p = String extsep tail) as Hdrop2.
    { by replace (S m + (n - S m)) with n by lia. }
    rewrite <-drop_drop in Hdrop2.
    assert (PyStr.drop (S m) p = tail') as Htail2.
    { clear -Hdrop'. revert p Hdrop'. induction m as [|m IH]; intros [|a p]; simpl;
        try done; [by intros [= _ ->]|apply IH]. }
    rewrite Htail2 in Hdrop2. apply (has_char_drop _ (n - S m)) in Htail'.
    rewrite Hdrop2 in Htail'. simpl in Htail'.
    by apply orb_false_elim in Htail' as [_ ?].
Qed.

(** The two parts [os.path.splitext] returns make up the path again; the
    extension has no separator in it, and it is empty, or it is a dot
    followed by characters among which there is no dot. *)
Lemma splitext_parts p :
  (splitext p).1 +:+ (splitext p).2 = p ∧
  no_separator (splitext p).2 ∧
  ((splitext p).2 = "" ∨
   ∃ tail, (splitext p).2 = String "." tail ∧ has_char "." tail = false).
Proof.
  destruct (splitext_cases p) as [->|(n & tail & Hn & Hlen & Hsep & Hdrop & Htail & ->)].
  { simpl. split; [apply append_empty_r|]. split; [|by left].
    split; [done|]. by destruct altsep. }
  simpl. split; [by rewrite <-Hdrop, take_drop|]. split; [|by eauto].
  assert (∀ c, (rfind p c < Z.of_nat n)%Z → has_char c (String extsep tail) = false)
    as Hnone.
  { intros c Hc. simpl. rewrite (no_char_after c p n tail Hc Hdrop), orb_false_r.
    apply bool_decide_eq_false. intros <-. unfold extsep in *. lia. }
  unfold no_separator. destruct altsep as [alt|].
  - split; apply Hnone; lia.
  - split; [|done]. by apply Hnone.
Qed.

Lemma get_length_append s a t : String.get (String.length s) (s +:+ String a t) = Some a.
Proof. induction s as [|b s IH]; [done|]. by rewrite append_String. Qed.

Lemma only_dots_append pre s rest :
  only_dots (pre +:+ s +:+ rest) (Z.of_nat (String.length pre)) (String.length s) =
    only_dot_chars s.
Proof.
  revert pre. induction s as [|a s IH]; intros pre; [done|].
  cbn [String.length only_dots only_dot_chars].
  rewrite Nat2Z.id, append_String, get_length_append.
  destruct (decide (a = extsep)) as [->|Hne].
  - rewrite decide_True, bool_decide_eq_true_2 by done. simpl.
    rewrite <-(IH (pre +:+ String extsep "")), !append_assoc, append_String,
      append_empty_l.
    f_equal. rewrite length_append. simpl. lia.
  - rewrite decide_False by congruence. by rewrite bool_decide_eq_false_2.
Qed.

(** The extension of a name that ends in a dot and a last part without
    dots: what comes before the dot must have a character that is no dot,
    and the name no separator. *)
Lemma splitext_suffix stem e :
  only_dot_chars stem = false → has_char extsep e = false →
  no_separator (stem +:+ String extsep e) →
  splitext (stem +:+ String extsep e) = (stem, String extsep e).
Proof.
  intros Hstem He [Hsep Halt]. unfold splitext.
  rewrite (rfind_last extsep stem e He).
  assert (match altsep with
          | Some alt => Z.max (rfind (stem +:+ String extsep e) sep)
                          (rfind (stem +:+ String extsep e) alt)
          | None => rfind (stem +:+ String extsep e) sep
          end = (-1)%Z) as ->.
  { unfold rfind. rewrite (rfind_from_none sep) by done.
    destruct altsep; [by rewrite rfind_from_none|done]. }
  destruct (Z.ltb_spec (-1) (Z.of_nat (String.length stem))); [|lia].
  replace (Z.to_nat (Z.of_nat (String.length stem) - (-1 + 1))) with (String.length stem)
    by lia.
  change (-1 + 1)%Z with (Z.of_nat (String.length "")).
  rewrite <-(append_empty_l (stem +:+ String extsep e)) at 1.
  rewrite only_dots_append, Hstem.
  destruct (slice_at (String.length stem) (stem +:+ String extsep e)) as [-> ->].
  { rewrite length_append. lia. }
  by rewrite take_length_append, drop_length_append.
Qed.
End SplitextFacts.

Section LowerFacts.
Implicit Types (s t : string) (c : ascii).

Lemma lower_char_idem c : lower_char (lower_char c) = lower_char c.
Proof. by destruct c as [[] [] [] [] [] [] [] []]. Qed.

Lemma lower_char_dot c : lower_char c = "."%char ↔ c = "."%char.
Proof. destruct c as [[] [] [] [] [] [] [] []]; by split. Qed.

Lemma lower_append s t : lower (s +:+ t) = lower s +:+ lower t.
Proof.
  induction s as [|c s IH]; [done|]. rewrite append_String. simpl.
  by rewrite IH, append_String.
Qed.

Lemma lower_idem s : lower (lower s) = lower s.
Proof. induction s as [|c s IH]; [done|]. simpl. by rewrite lower_char_idem, IH. Qed.

Lemma has_dot_lower s : has_char "." (lower s) = has_char "." s.
Proof.
  induction s as [|c s IH]; [done|]. simpl. rewrite IH. f_equal.
  apply bool_decide_ext, lower_char_dot.
Qed.
End LowerFacts.

(* ================================================================== *)
(** * Listing a folder *)

Section ListFilesFacts.
Context {World : Type} `{!Host World} `{!OsPath.Platform}.
Implicit Types (self : SharePointClient) (st : state World).
Implicit Types (properties : FileProperties) (file_info : FileInfo).

Lemma file_info_of_ok properties file_info :
  file_info_of properties = Ok file_info ↔
  Name properties = Some (name file_info) ∧
  ServerRelativeUrl properties = Some (server_relative_url file_info) ∧
  Length properties = Some (size file_info) ∧
  time_created file_info = default "" (TimeCreated properties) ∧
  time_modified file_info = default "" (TimeLastModified properties) ∧
  extension file_info = lower (OsPath.splitext (name file_info)).2.
Proof.
  unfold file_info_of. destruct properties as [[n|] [u|] [l|] c m]; simpl.
  2-8: split; [done | by intros (? & ? & ? & _)].
  split.
  - by intros [= <-].
  - destruct file_info; simpl. by intros ([= ->] & [= ->] & [= ->] & -> & -> & ->).
Qed.

Lemma file_info_of_raise properties e :
  file_info_of properties = Raise e ↔
  (Name properties = None ∧ e = KeyError "Name") ∨
  (is_Some (Name properties) ∧ ServerRelativeUrl properties = None ∧
     e = KeyError "ServerRelativeUrl") ∨
  (is_Some (Name properties) ∧ is_Some (ServerRelativeUrl properties) ∧
     Length properties = None ∧ e = KeyError "Length").
Proof.
  unfold file_info_of. destruct properties as [[n|] [u|] [l|] c m]; simpl.
  all: split; [intros [= <-]; by eauto 10|].
  all: intros [(? & ?)|[(? & ? & ?)|(? & ? & ? & ?)]]; simplify_eq; try done.
  all: by match goal with H : is_Some None |- _ => destruct H end.
Qed.

Lemma file_infos_of_ok files file_list out :
  file_infos_of files file_list = Ok out →
  ∃ new, out = file_list ++ new ∧
         Forall2 (λ properties file_info, file_info_of properties = Ok file_info)
           files new.
Proof.
  revert file_list. induction files as [|file rest IH]; intros file_list; simpl.
  { intros [= <-]. exists []. by rewrite app_nil_r. }
  destruct (file_info_of file) as [file_info|e] eqn:Hfile; simpl; [|done].
  intros (new & -> & Hnew)%IH. exists (file_info :: new).
  split; [by rewrite <-app_assoc|]. by constructor.
Qed.

Lemma file_infos_of_raise files file_list e :
  file_infos_of files file_list = Raise e →
  ∃ good bad rest,
    files = good ++ bad :: rest ∧
    Forall (λ properties, ∃ file_info, file_info_of properties = Ok file_info) good ∧
    file_info_of bad = Raise e.
Proof.
  revert file_list. induction files as [|file rest IH]; intros file_list; simpl; [done|].
  destruct (file_info_of file) as [file_info|e'] eqn:Hfile; simpl.
  - intros (good & bad & rest' & -> & Hgood & Hbad)%IH.
    exists (file :: good), bad, rest'. split; [done|]. split; [|done].
    constructor; [by eauto|done].
  - intros [= ->]. by exists [], file, rest.
Qed.

(** [list_files] in closed form. *)
Lemma list_files_run self folder_path st :
  list_files self folder_path st =
    match ctx self with
    | None =>
        (Raise (RuntimeError "Not connected to SharePoint. Call connect() first."), st)
    | Some site =>
        match sharepoint_folder_files site (lstrip_char "/" folder_path) (world st) with
        | (Ok files, w) => (file_infos_of files [], State w (calls st))
        | (Raise e, w) => (Raise e, State w (calls st))
        end
    end.
Proof.
  unfold list_files. destruct (ctx self) as [site|]; [|done].
  unfold try_catch, mbind, M_bind, bind, do_sharepoint_folder_files, lift, raise.
  destruct (sharepoint_folder_files _ _ _) as [[files|e] w]; [|done].
  by destruct (file_infos_of files []).
Qed.

(** When [list_files] returns, the client is connected, the folder was
    asked for without its leading slashes, and the list has one entry for
    each file of the folder, in the order of the folder: name, URL and
    size are those of the file, the two times are those of the file or
    empty, and the extension is the lower-case extension of the name. *)
Theorem list_files_entries self folder_path st files st' :
  list_files self folder_path st = (Ok files, st') →
  ∃ site listed,
    ctx self = Some site ∧
    sharepoint_folder_files site (lstrip_char "/" folder_path) (world st) =
      (Ok listed, world st') ∧
    calls st' = calls st ∧
    Forall2
      (λ properties file_info,
         Name properties = Some (name file_info) ∧
         ServerRelativeUrl properties = Some (server_relative_url file_info) ∧
         Length properties = Some (size file_info) ∧
         time_created file_info = default "" (TimeCreated properties) ∧
         time_modified file_info = default "" (TimeLastModified properties) ∧
         extension file_info = lower (OsPath.splitext (name file_info)).2)
      listed files.
Proof.
  rewrite list_files_run. destruct (ctx self) as [site|]; [|done].
  destruct (sharepoint_folder_files _ _ _) as [[listed|e] w] eqn:Hlisted; [|done].
  intros [= Hfiles <-]. exists site, listed. split; [done|]. split; [done|].
  split; [done|].
  apply file_infos_of_ok in Hfiles as (new & -> & Hnew). simpl.
  eapply Forall2_impl; [done|]. intros properties file_info. apply file_info_of_ok.
Qed.

(** The extension of every file [list_files] returns is in lower case, is
    empty or a dot followed by characters that are no dots, and is the
    lower case of an end of the name that has no separator in it. *)
Theorem list_files_extensions self folder_path st files st' :
  list_files self folder_path st = (Ok files, st') →
  Forall
    (λ file_info,
       lower (extension file_info) = extension file_info ∧
       (extension file_info = "" ∨
        ∃ tail, extension file_info = String "." tail ∧ has_char "." tail = false) ∧
       ∃ root suffix,
         name file_info = root +:+ suffix ∧ no_separator suffix ∧
         extension file_info = lower suffix)
    files.
Proof.
  rewrite list_files_run. destruct (ctx self) as [site|]; [|done].
  destruct (sharepoint_folder_files _ _ _) as [[listed|e] w]; [|done].
  intros [= Hfiles _]. apply file_infos_of_ok in Hfiles as (new & -> & Hnew). simpl.
  induction Hnew as [|properties file_info listed new Hfile _ IH]; constructor; [|done].
  apply file_info_of_ok in Hfile as (_ & _ & _ & _ & _ & ->).
  destruct (splitext_parts (name file_info)) as (Hparts & Hsep & Hext).
  split; [apply lower_idem|]. split.
  - destruct Hext as [->|(tail & -> & Htail)]; [by left|right].
    exists (lower tail). split; [done|]. by rewrite has_dot_lower.
  - by exists (OsPath.splitext (name file_info)).1, (OsPath.splitext (name file_info)).2.
Qed.

(** When [list_files] raises, either the client is not connected, and
    nothing was asked of the site; or the site raised that exception; or the
    site returned the files and the first of them that lacks one of the keys
    "Name", "ServerRelativeUrl" and "Length" made the [KeyError] for the
    first key it lacks.  No part of the list is returned. *)
Theorem list_files_errors self folder_path st e st' :
  list_files self folder_path st = (Raise e, st') →
  (ctx self = None ∧ st' = st ∧
   e = RuntimeError "Not connected to SharePoint. Call connect() first.") ∨
  ∃ site,
    ctx self = Some site ∧ calls st' = calls st ∧
    (sharepoint_folder_files site (lstrip_char "/" folder_path) (world st) =
       (Raise e, world st') ∨
     ∃ good bad rest,
       sharepoint_folder_files site (lstrip_char "/" folder_path) (world st) =
         (Ok (good ++ bad :: rest), world st') ∧
       Forall (λ properties,
                 is_Some (Name properties) ∧ is_Some (ServerRelativeUrl properties) ∧
                 is_Some (Length properties)) good ∧
       ((Name bad = None ∧ e = KeyError "Name") ∨
        (is_Some (Name bad) ∧ ServerRelativeUrl bad = None ∧
           e = KeyError "ServerRelativeUrl") ∨
        (is_Some (Name bad) ∧ is_Some (ServerRelativeUrl bad) ∧
           Length bad = None ∧ e = KeyError "Length"))).
Proof.
  rewrite list_files_run. destruct (ctx self) as [site|]; [|by intros [= <- <-]; left].
  destruct (sharepoint_folder_files _ _ _) as [[listed|e'] w] eqn:Hlisted.
  - intros [= Hfiles <-]. right. exists site. split; [done|]. split; [done|]. right.
    apply file_infos_of_raise in Hfiles as (good & bad & rest & -> & Hgood & Hbad).
    exists good, bad, rest. split; [done|]. split; [|by apply file_info_of_raise].
    eapply Forall_impl; [done|]. intros properties [file_info Hok]. simpl in Hok.
    apply file_info_of_ok in Hok as (-> & -> & -> & _). by eauto.
  - intros [= <- <-]. right. exists site. by eauto.
Qed.

(** Upper case in the extension of a name does not matter: for a name that
    has no separator and ends in a dot and a last part without dots, after
    at least one character that is no dot, the listed extension is the dot
    with the last part in lower case, and the file is supported exactly
    when that is a supported type and the size is within the ceiling. *)
Theorem listed_extension_ignores_case `{!Settings} properties file_info stem e :
  file_info_of properties = Ok file_info →
  name file_info = stem +:+ "." +:+ e →
  only_dot_chars stem = false →
  has_char "." e = false →
  no_separator (name file_info) →
  extension file_info = "." +:+ lower e ∧
  (supported file_info ↔
     "." +:+ lower e ∈ Config.SUPPORTED_FILE_TYPES ∧
     (size file_info ≤ MAX_FILE_SIZE_MB * 1024 * 1024)%Z).
Proof.
  intros Hfile Hname Hstem He Hsep.
  apply file_info_of_ok in Hfile as (_ & _ & _ & _ & _ & Hext).
  assert (extension file_info = "." +:+ lower e) as Hextension.
  { rewrite Hext, Hname. rewrite Hname in Hsep.
    change ("." +:+ e) with (String OsPath.extsep e) in *.
    by rewrite (splitext_suffix stem e Hstem He Hsep). }
  split; [done|]. unfold supported. by rewrite Hextension.
Qed.
End ListFilesFacts.

(* ================================================================== *)
(** * The layout of the report *)

Section LayoutFacts.
Import ExcelGenerator.
Implicit Types (sheet : worksheet) (result : AnalysisRecord) (error : ProcessingError).

Lemma write_result_cells sheet idx result column :
  1 ≤ column ≤ 6 →
  write_result sheet idx result !! (header_row + idx, column) = row_cell idx result column.
Proof.
  intros Hcolumn. unfold write_result, set_cell.
  destruct column as [|[|[|[|[|[|[|column]]]]]]]; try lia;
    repeat first [rewrite lookup_insert_eq; reflexivity
                 | rewrite lookup_insert_ne by (intros [=])].
Qed.

Lemma write_result_unwritten sheet idx result row column :
  row ≠ header_row + idx ∨ column = 0 ∨ 6 < column →
  write_result sheet idx result !! (row, column) = sheet !! (row, column).
Proof.
  intros Hout. unfold write_result, set_cell, header_row in *.
  rewrite !lookup_insert_ne; [done|intros [= ? ?]; lia..].
Qed.

Lemma write_results_unwritten sheet idx results row column :
  ¬ (header_row + idx ≤ row < header_row + idx + length results ∧ 1 ≤ column ≤ 6) →
  write_results sheet idx results !! (row, column) = sheet !! (row, column).
Proof.
  revert sheet idx. induction results as [|result rest IH]; intros sheet idx Hout;
    [done|].
  cbn [write_results]. rewrite IH by (cbn [length] in Hout; lia).
  apply write_result_unwritten. cbn [length] in Hout. lia.
Qed.

Lemma write_results_cells sheet idx results i result column :
  results !! i = Some result → 1 ≤ column ≤ 6 →
  write_results sheet idx results !! (header_row + (idx + i), column) =
    row_cell (idx + i) result column.
Proof.
  revert sheet idx i.
  induction results as [|first rest IH]; intros sheet idx i Hi Hcolumn; [done|].
  cbn [write_results]. destruct i as [|i]; simpl in Hi.
  - injection Hi as ->. rewrite write_results_unwritten by lia.
    rewrite Nat.add_0_r. by apply write_result_cells.
  - replace (idx + S i) with (S idx + i) by lia. by apply IH.
Qed.

Lemma write_headers_unwritten sheet col_num hs row column :
  ¬ (row = header_row ∧ col_num ≤ column < col_num + length hs) →
  write_headers sheet col_num hs !! (row, column) = sheet !! (row, column).
Proof.
  revert sheet col_num. induction hs as [|header rest IH]; intros sheet col_num Hout;
    [done|].
  cbn [write_headers]. rewrite IH by (cbn [length] in Hout; lia).
  unfold set_cell, header_row in *. apply lookup_insert_ne.
  intros [= ? ?]. cbn [length] in Hout. lia.
Qed.

Lemma write_headers_cells sheet col_num hs i header :
  hs !! i = Some header →
  write_headers sheet col_num hs !! (header_row, col_num + i) = Some (CellStr header).
Proof.
  revert sheet col_num i. induction hs as [|first rest IH]; intros sheet col_num i Hi;
    [done|].
  cbn [write_headers]. destruct i as [|i]; simpl in Hi.
  - injection Hi as ->. rewrite write_headers_unwritten by lia.
    rewrite Nat.add_0_r. apply lookup_insert_eq.
  - replace (col_num + S i) with (S col_num + i) by lia. by apply IH.
Qed.

(** [create_report] puts every record in a row of its own, in the order of
    the list, from the row under the headers: the row of the record at
    position [i] holds its number [i + 1], its filename, title and summary,
    its size in KB and its time of modification. *)
Theorem create_report_rows sheet analysis_results sharepoint_url folder_path now
    i result :
  analysis_results !! i = Some result →
  let report := create_report sheet analysis_results sharepoint_url folder_path now in
  report !! (8 + i, 1) = Some (CellInt (Z.of_nat i + 1)) ∧
  report !! (8 + i, 2) = Some (CellStr (r_filename result)) ∧
  report !! (8 + i, 3) = Some (CellValue (r_title result)) ∧
  report !! (8 + i, 4) = Some (CellValue (r_summary result)) ∧
  report !! (8 + i, 5) =
    Some (CellFloat (PyFloat.round (PyFloat.truediv (r_size result) 1024) 2)) ∧
  report !! (8 + i, 6) = Some (CellStr (r_time_modified result)).
Proof.
  intros Hi report. subst report. unfold create_report.
  change (8 + i) with (header_row + (1 + i)).
  rewrite !(write_results_cells _ 1 analysis_results i result) by (done || lia).
  simpl row_cell. replace (Z.of_nat (S i)) with (Z.of_nat i + 1)%Z by lia. done.
Qed.

(** [create_report] writes the title and the four lines under it, the last
    with the number of records, then the six headers in row 7; the rows of
    the records do not overwrite them, and no other cell of the sheet is
    changed: column 1 of rows 1 to 5, columns 1 to 6 of row 7 and of one row
    for each record are all it writes. *)
Theorem create_report_frame sheet analysis_results sharepoint_url folder_path now :
  let report := create_report sheet analysis_results sharepoint_url folder_path now in
  report !! (1, 1) = Some (CellStr "SharePoint File Analysis Report") ∧
  report !! (2, 1) = Some (CellStr ("SharePoint Site: " +:+ sharepoint_url)) ∧
  report !! (3, 1) = Some (CellStr ("Folder Path: " +:+ folder_path)) ∧
  report !! (4, 1) = Some (CellStr ("Generated: " +:+ now)) ∧
  report !! (5, 1) =
    Some (CellStr ("Total Files Analyzed: " +:+ str_of_nat (length analysis_results))) ∧
  (∀ c header, headers !! c = Some header →
     report !! (7, S c) = Some (CellStr header)) ∧
  (∀ row column,
     ¬ (1 ≤ row ≤ 5 ∧ column = 1) →
     ¬ (7 ≤ row ≤ 7 + length analysis_results ∧ 1 ≤ column ≤ 6) →
     report !! (row, column) = sheet !! (row, column)).
Proof.
  intros report. subst report. unfold create_report.
  assert (∀ row column s,
            row < 7 →
            write_results (write_headers s 1 headers) 1 analysis_results !! (row, column)
              = s !! (row, column)) as Habove.
  { intros row column s Hrow.
    rewrite write_results_unwritten by (unfold header_row; lia).
    apply write_headers_unwritten. unfold header_row. lia. }
  repeat split.
  1-5: rewrite Habove by lia; unfold set_cell;
    repeat first [rewrite lookup_insert_eq; reflexivity
                 | rewrite lookup_insert_ne by (intros [=])].
  - intros c header Hc. rewrite write_results_unwritten by (unfold header_row; lia).
    apply (write_headers_cells _ 1 headers c header Hc).
  - intros row column Htop Hrows.
    rewrite write_results_unwritten by (unfold header_row; lia).
    rewrite write_headers_unwritten by (unfold header_row; simpl; lia).
    unfold set_cell. rewrite !lookup_insert_ne; [done|intros [= ? ?]; lia..].
Qed.
End LayoutFacts.

Section ErrorSheetFacts.
Import ExcelGenerator.
Implicit Types (sheet : worksheet) (error : ProcessingError).

Lemma write_error_unwritten sheet idx error row column :
  row ≠ 3 + idx ∨ column = 0 ∨ 3 < column →
  write_error sheet idx error !! (row, column) = sheet !! (row, column).
Proof.
  intros Hout. unfold write_error, set_cell.
  rewrite !lookup_insert_ne; [done|intros [= ? ?]; lia..].
Qed.

Lemma write_errors_unwritten sheet idx errors row column :
  ¬ (3 + idx ≤ row < 3 + idx + length errors ∧ 1 ≤ column ≤ 3) →
  write_errors sheet idx errors !! (row, column) = sheet !! (row, column).
Proof.
  revert sheet idx. induction errors as [|error rest IH]; intros sheet idx Hout; [done|].
  cbn [write_errors]. rewrite IH by (cbn [length] in Hout; lia).
  apply write_error_unwritten. cbn [length] in Hout. lia.
Qed.

Lemma write_errors_cells sheet idx errors i error :
  errors !! i = Some error →
  write_errors sheet idx errors !! (3 + (idx + i), 1) = Some (CellStr (e_filename error)) ∧
  write_errors sheet idx errors !! (3 + (idx + i), 2) = Some (CellStr (error_type error)) ∧
  write_errors sheet idx errors !! (3 + (idx + i), 3) =
    Some (CellStr (error_message error)).
Proof.
  revert sheet idx i. induction errors as [|first rest IH]; intros sheet idx i Hi; [done|].
  cbn [write_errors]. destruct i as [|i]; simpl in Hi.
  - injection Hi as ->. rewrite !write_errors_unwritten by lia.
    rewrite Nat.add_0_r. unfold write_error, set_cell.
    repeat split;
      repeat first [rewrite lookup_insert_eq; reflexivity
                   | rewrite lookup_insert_ne by (intros [=])].
  - replace (idx + S i) with (S idx + i) by lia. by apply IH.
Qed.

Lemma write_error_headers_unwritten sheet col_num hs row column :
  ¬ (row = 3 ∧ col_num ≤ column < col_num + length hs) →
  write_error_headers sheet col_num hs !! (row, column) = sheet !! (row, column).
Proof.
  revert sheet col_num. induction hs as [|header rest IH]; intros sheet col_num Hout;
    [done|].
  cbn [write_error_headers]. rewrite IH by (cbn [length] in Hout; lia).
  unfold set_cell. apply lookup_insert_ne. intros [= ? ?]. cbn [length] in Hout. lia.
Qed.

Lemma write_error_headers_cells sheet col_num hs i header :
  hs !! i = Some header →
  write_error_headers sheet col_num hs !! (3, col_num + i) = Some (CellStr header).
Proof.
  revert sheet col_num i. induction hs as [|first rest IH]; intros sheet col_num i Hi;
    [done|].
  cbn [write_error_headers]. destruct i as [|i]; simpl in Hi.
  - injection Hi as ->. rewrite write_error_headers_unwritten by lia.
    rewrite Nat.add_0_r. apply lookup_insert_eq.
  - replace (col_num + S i) with (S col_num + i) by lia. by apply IH.
Qed.

(** The sheet of the errors: its title line, the three headers in row 3,
    then one row for each error, in the order of the list, with its
    filename, its type and its message; every other cell is empty. *)
Lemma error_sheet_layout errors :
  error_sheet errors !! (1, 1) = Some (CellStr "Files with Processing Errors") ∧
  (∀ c header, error_headers !! c = Some header →
     error_sheet errors !! (3, S c) = Some (CellStr header)) ∧
  (∀ i error, errors !! i = Some error →
     error_sheet errors !! (4 + i, 1) = Some (CellStr (e_filename error)) ∧
     error_sheet errors !! (4 + i, 2) = Some (CellStr (error_type error)) ∧
     error_sheet errors !! (4 + i, 3) = Some (CellStr (error_message error))) ∧
  (∀ row column,
     (row, column) ≠ (1, 1) →
     ¬ (3 ≤ row ≤ 3 + length errors ∧ 1 ≤ column ≤ 3) →
     error_sheet errors !! (row, column) = None).
Proof.
  unfold error_sheet. repeat split.
  - rewrite write_errors_unwritten, write_error_headers_unwritten by lia.
    apply lookup_insert_eq.
  - intros c header Hc. rewrite write_errors_unwritten by lia.
    apply (write_error_headers_cells _ 1 error_headers c header Hc).
  - apply (write_errors_cells _ 1 errors i error H).
  - apply (write_errors_cells _ 1 errors i error H).
  - apply (write_errors_cells _ 1 errors i error H).
  - intros row column Hfirst Hrows.
    rewrite write_errors_unwritten by lia.
    rewrite write_error_headers_unwritten by (simpl; lia).
    unfold set_cell. by rewrite lookup_insert_ne.
Qed.
End ErrorSheetFacts.

Section WorkbookFacts.
Context {World : Type} `{!Host World}.
Implicit Types (self : excel_generator) (errors : list ProcessingError).

(** [add_error_sheet] does nothing for an empty list of errors.  For a list
    that is not empty it adds one sheet after the sheets there are and
    leaves those, the report among them, as they were; the new sheet has a
    title line, the three headers in row 3 and then one row for each error,
    in the order of the list, with its filename, type and message, and
    nothing else. *)
Theorem add_error_sheet_layout self errors :
  (errors = [] → add_error_sheet self errors = self) ∧
  (errors ≠ [] →
   ∃ title sheet,
     wb (add_error_sheet self errors) = wb self ++ [(title, sheet)] ∧
     output_filename (add_error_sheet self errors) = output_filename self ∧
     sheet !! (1, 1) = Some (CellStr "Files with Processing Errors") ∧
     (∀ c header, error_headers !! c = Some header →
        sheet !! (3, S c) = Some (CellStr header)) ∧
     (∀ i error, errors !! i = Some error →
        sheet !! (4 + i, 1) = Some (CellStr (e_filename error)) ∧
        sheet !! (4 + i, 2) = Some (CellStr (error_type error)) ∧
        sheet !! (4 + i, 3) = Some (CellStr (error_message error))) ∧
     (∀ row column,
        (row, column) ≠ (1, 1) →
        ¬ (3 ≤ row ≤ 3 + length errors ∧ 1 ≤ column ≤ 3) →
        sheet !! (row, column) = None)).
Proof.
  split; [by intros ->|]. intros Hne.
  destruct errors as [|error rest]; [done|].
  eexists _, (error_sheet (error :: rest)).
  split; [done|]. split; [done|]. apply error_sheet_layout.
Qed.
End WorkbookFacts.

(* ================================================================== *)
(** * The program *)

Section ProgramFacts.
Context {World : Type} `{!Externals World} `{!Host World}.
Context `{!Settings} `{!Environ} `{!OsPath.Platform}.
Implicit Types (p : process World) (st : state World).

Lemma validated_use_env_config : validate = [] → truthy use_env_config = true.
Proof.
  intros Hvalid. apply validate_empty in Hvalid as (Hsite & Hauth & _).
  unfold use_env_config. rewrite truthy_str_and, truthy_str_or, Hsite. simpl.
  by destruct (truthy SHAREPOINT_USERNAME), (truthy SHAREPOINT_CLIENT_ID).
Qed.

Lemma validated_connect_client :
  validate = [] →
  connect (SharePointClient_init (Some SHAREPOINT_SITE_URL)) None None =
    Ok connected_client.
Proof.
  intros Hvalid. pose proof Hvalid as Hvalid'.
  apply validate_empty in Hvalid as (Hsite & Hauth & _).
  unfold connect, SharePointClient_init, connected_client, opt_or, str_or. simpl.
  rewrite Hsite, !truthy_str_and.
  destruct (truthy SHAREPOINT_USERNAME && truthy SHAREPOINT_PASSWORD); [done|].
  simpl in Hauth. apply andb_prop in Hauth as [-> _]. done.
Qed.

(** The body of the [try] of [main], step by step, for a configuration
    [Config.validate] accepts. *)
Lemma main_try_run p :
  validate = [] →
  main_try p =
    match get_user_input "Enter SharePoint folder path" (Some "Shared Documents")
            (stdin p) with
    | (Raise e, rest) => (Raised e, Process (services p) rest)
    | (Ok folder_path, rest) =>
        match AIAnalyzer_new (services p) with
        | (Raise e, st0) => (Raised e, Process st0 rest)
        | (Ok ai_analyzer, st0) =>
            match list_files connected_client folder_path st0 with
            | (Raise e, st1) => (Raised e, Process st1 rest)
            | (Ok [], st1) => (Exited 0, Process st1 rest)
            | (Ok (file :: files), st1) =>
                match process_files connected_client ai_analyzer (file :: files) st1 with
                | ([], errors, st2) => (Exited 1, Process st2 rest)
                | (record :: records, errors, st2) =>
                    let '(now, w) := datetime_now (world st2) in
                    let excel_gen :=
                      report_generator (record :: records) errors
                        SHAREPOINT_SITE_URL folder_path now in
                    match workbook_save OUTPUT_FILENAME (wb excel_gen) w with
                    | (Ok _, w') => (Returned tt, Process (State w' (calls st2)) rest)
                    | (Raise _, w') => (Exited 1, Process (State w' (calls st2)) rest)
                    end
                end
            end
        end
    end.
Proof.
  intros Hvalid. unfold main_try.
  rewrite (validated_use_env_config Hvalid). simpl negb. cbv iota.
  unfold mbind, P_mbind, P_bind, mret, P_mret, P_ret at 1. cbv beta.
  unfold of_stdin at 1.
  destruct (get_user_input _ _ (stdin p)) as [[folder_path|e] rest]; [|done].
  cbn [of_result P_ret fst snd]. rewrite (validated_connect_client Hvalid).
  cbn [of_result]. unfold of_services at 1. cbn [services stdin].
  destruct (AIAnalyzer_new (services p)) as [[ai_analyzer|e] st0]; [|done].
  cbn [of_result]. unfold of_services at 1. cbn [services stdin].
  destruct (list_files connected_client folder_path st0) as [[files|e] st1]; [|done].
  cbn [of_result]. destruct files as [|file files]; [done|].
  cbn [services stdin].
  destruct (process_files _ _ _ _) as [[analysis_results errors] st2].
  destruct analysis_results as [|record records]; [done|].
  unfold of_services at 1. cbn [services stdin].
  unfold generator_create_report, mbind at 1, M_bind, bind, do_datetime_now, ret.
  destruct (datetime_now (world st2)) as [now w].
  cbn [of_result]. unfold of_services, save, try_catch, mbind, M_bind, bind,
    do_workbook_save, ret. cbn [services stdin world calls].
  assert (∀ g, output_filename (match errors with [] => g | _ :: _ => add_error_sheet g errors end)
               = output_filename g) as Hname by (intros g; by destruct errors).
  unfold report_generator, ExcelGenerator_init. rewrite Hname. cbn [output_filename].
  by destruct (workbook_save _ _ _) as [[[]|e] w'].
Qed.

Lemma get_user_input_default prompt default_value stdin :
  truthy default_value = true →
  (stdin = [] ∧
   get_user_input prompt (Some default_value) stdin = (Raise EOFError, [])) ∨
  ∃ line rest,
    stdin = line :: rest ∧
    get_user_input prompt (Some default_value) stdin =
      (Ok (if truthy (PyStr.strip line) then PyStr.strip line else default_value), rest).
Proof.
  intros Hdefault. unfold get_user_input. rewrite Hdefault.
  destruct stdin as [|line rest]; [by left|right]. by exists line, rest.
Qed.

(** [main] lets no exception out and ends with the status 0 or 1.  It
    reads at most one line of the standard input, the folder path: a
    configuration [Config.validate] accepts has the site URL and the
    credentials, so the site URL, the username and the password are never
    asked for.  With a configuration [Config.validate] rejects it ends with
    the status 1 and has done nothing. *)
Theorem main_outcomes p o p' :
  main p = (o, p') →
  (o = Returned tt ∨ o = Exited 0 ∨ o = Exited 1) ∧
  (∃ read, stdin p = read ++ stdin p' ∧ length read ≤ 1) ∧
  (validate ≠ [] → o = Exited 1 ∧ p' = p).
Proof.
  unfold main, validate_configuration.
  destruct validate as [|error errors] eqn:Hvalid; simpl negb; cbv iota.
  2: { intros [= <- <-]. split; [by auto|]. split; [|done].
    exists []. split; [done|simpl; lia]. }
  rewrite (main_try_run p Hvalid).
  destruct (get_user_input_default "Enter SharePoint folder path" "Shared Documents"
              (stdin p) eq_refl) as [[Hnil ->]|(line & rest & Hline & ->)].
  { intros [= <- <-]. rewrite Hnil. split; [by auto|]. split; [|done].
    exists []. split; [done|simpl; lia]. }
  assert (∃ read, stdin p = read ++ rest ∧ length read ≤ 1) as Hread.
  { exists [line]. rewrite Hline. split; [done|simpl; lia]. }
  cbv zeta. intros Hrun. split; [|split; [|done]].
  - repeat case_match; simplify_eq; by auto.
  - repeat case_match; simplify_eq; done.
Qed.

(** [main] returns only after it has saved a report.  The configuration was
    accepted; the folder had files; [process_files] made at least one record
    from them; and [wb.save] succeeded on the output filename for a workbook
    whose first sheet is "File Analysis", made by [create_report] from those
    records on an empty sheet, followed by the sheet of the errors when
    there are errors, and by nothing else. *)
Theorem main_returns_after_saving p p' :
  main p = (Returned tt, p') →
  ∃ folder_path st0 files st1 analysis_results errors st2 now w,
    validate = [] ∧
    AIAnalyzer_new (services p) = (Ok AIAnalyzer_init.2, st0) ∧
    list_files connected_client folder_path st0 = (Ok files, st1) ∧
    files ≠ [] ∧
    process_files connected_client AIAnalyzer_init.2 files st1 =
      (analysis_results, errors, st2) ∧
    analysis_results ≠ [] ∧
    datetime_now (world st2) = (now, w) ∧
    workbook_save OUTPUT_FILENAME
      ((WS_TITLE,
        ExcelGenerator.create_report ∅ analysis_results SHAREPOINT_SITE_URL
          folder_path now)
       :: match errors with
          | [] => []
          | _ :: _ => [(new_sheet_title [WS_TITLE] "Errors", error_sheet errors)]
          end) w = (Ok tt, world (services p')) ∧
    calls (services p') = calls st2.
Proof.
  unfold main, validate_configuration.
  destruct validate as [|error errors] eqn:Hvalid; simpl negb; cbv iota; [|done].
  rewrite (main_try_run p Hvalid). cbv zeta.
  destruct (get_user_input _ _ _) as [[folder_path|e] rest]; [|done].
  destruct (AIAnalyzer_new (services p)) as [[ai_analyzer|e] st0] eqn:Hai; [|done].
  assert (ai_analyzer = AIAnalyzer_init.2) as ->.
  { unfold AIAnalyzer_new in Hai.
    destruct (new_ai_client _ _) as [[[]|e] w]; by simplify_eq. }
  destruct (list_files _ _ _) as [[[|file files]|e] st1] eqn:Hfiles; try done.
  destruct (process_files _ _ _ _) as [[[|record records] errs] st2] eqn:Hrecords;
    [done|].
  destruct (datetime_now _) as [now w] eqn:Hnow.
  destruct (workbook_save _ _ _) as [[[]|e] w'] eqn:Hsave; [|done].
  intros [= <-]. exists folder_path, st0, (file :: files), st1, (record :: records), errs,
    st2, now, w.
  do 7 (split; [done|]). split; [|done].
  simpl. rewrite <-Hsave. f_equal. unfold report_generator. by destruct errs.
Qed.


(** A folder whose files are all of an unsupported type or too large ends
    the program with the status 1 in the state the listing left: nothing is
    downloaded or analysed and no report is saved. *)
Theorem main_nothing_supported p folder_path rest st0 files st1 :
  validate = [] →
  get_user_input "Enter SharePoint folder path" (Some "Shared Documents") (stdin p) =
    (Ok folder_path, rest) →
  AIAnalyzer_new (services p) = (Ok AIAnalyzer_init.2, st0) →
  list_files connected_client folder_path st0 = (Ok files, st1) →
  files ≠ [] →
  Forall (λ file_info, ¬ supported file_info) files →
  main p = (Exited 1, Process st1 rest).
Proof.
  intros Hvalid Hfolder Hai Hfiles Hne Hnone.
  unfold main, validate_configuration. rewrite Hvalid. simpl negb. cbv iota.
  rewrite (main_try_run p Hvalid), Hfolder, Hai, Hfiles.
  destruct files as [|file files]; [done|].
  assert (process_files connected_client AIAnalyzer_init.2 (file :: files) st1 =
            ([], [], st1)) as ->; [|done].
  unfold process_files.
  assert (filter supported (file :: files) = []) as ->; [|done].
  clear -Hnone. generalize dependent (file :: files). intros l Hnone.
  induction Hnone as [|f fs Hf _ IH]; [done|]. by rewrite filter_cons_False.
Qed.
End ProgramFacts.

(* ================================================================== *)
(** * More on the batch processor *)

Section PipelineMore.
Context {World : Type} `{!Externals World} `{!Settings}.
Implicit Types (sp_client : SharePointClient) (ai_analyzer : AIAnalyzer).
Implicit Types (file_info : FileInfo) (st : state World).

Lemma has_text_blank text : PyStr.strip text = "" → has_text text = false.
Proof. intros Hblank. unfold has_text. rewrite Hblank. by rewrite andb_false_r. Qed.

(** A supported file whose text is empty or all white space is analysed
    from its metadata, like a file whose text could not be fetched, but
    without an error: its record is appended, the list of errors is not
    touched, and the loop goes on from the state the fetch left, so the
    text-generation service is not called for it. *)
Theorem process_files_blank_text sp_client ai_analyzer before file_info after
    st records0 errors0 st0 text st1 :
  supported file_info →
  process_files sp_client ai_analyzer before st = (records0, errors0, st0) →
  get_file_content_as_text sp_client (server_relative_url file_info)
    (extension file_info) st0 = (Ok text, st1) →
  PyStr.strip text = "" →
  ∃ records2 errors2 st2,
    process_files sp_client ai_analyzer after st1 = (records2, errors2, st2) ∧
    process_files sp_client ai_analyzer (before ++ file_info :: after) st =
      (records0 ++
         record_of file_info
           (analyze_file_metadata ai_analyzer (name file_info) (extension file_info))
         :: records2,
       errors0 ++ errors2,
       st2).
Proof.
  intros Hsupported Hbefore Htext Hblank. unfold process_files in *.
  destruct (process_loop sp_client ai_analyzer (filter supported after) [] [] st1)
    as [[records2 errors2] st2] eqn:Hafter.
  exists records2, errors2, st2. split; [done|].
  rewrite filter_app, filter_cons_True by done.
  rewrite process_loop_app, Hbefore. simpl.
  rewrite process_file_frame, process_file_run, Htext, (has_text_blank _ Hblank).
  rewrite process_loop_frame, Hafter.
  by rewrite <-!app_assoc.
Qed.

Lemma count_reads_app cs1 cs2 : count_reads (cs1 ++ cs2) = count_reads cs1 + count_reads cs2.
Proof. unfold count_reads. by rewrite List.filter_app, length_app. Qed.

Lemma count_chats_app cs1 cs2 : count_chats (cs1 ++ cs2) = count_chats cs1 + count_chats cs2.
Proof. unfold count_chats. by rewrite List.filter_app, length_app. Qed.

(** What one run of the body of the loop adds to the calls, for a client
    that is connected: the download, then at most the one call of the
    analysis, and no such call when the download has failed. *)
Lemma process_file_calls sp_client ai_analyzer file_info st site :
  ctx sp_client = Some site →
  ∃ new,
    calls (process_file sp_client ai_analyzer file_info [] [] st).2 = calls st ++ new ∧
    count_reads new = 1 ∧
    count_chats new + length (process_file sp_client ai_analyzer file_info [] [] st).1.2 ≤ 1.
Proof.
  intros Hctx. rewrite process_file_run, get_file_content_as_text_run.
  unfold download_file, try_catch, raise, do_sharepoint_read. rewrite Hctx.
  destruct (sharepoint_read _ _ _) as [[content|e] w].
  - destruct (has_text _).
    + rewrite analyze_document_run. unfold state_after. simpl.
      eexists [_; _]. rewrite <-app_assoc. split; [done|]. split; [done|simpl; lia].
    + simpl. eexists [_]. split; [done|]. split; [done|simpl; lia].
  - simpl. eexists [_]. split; [done|]. split; [done|simpl; lia].
Qed.

(** With a client that is connected, [process_files] only adds to the list
    of calls: one download for each supported file, and at most one call of
    the text-generation service for each, none for a file whose download
    failed.  It never fetches a file twice and never repeats an analysis. *)
Theorem process_files_calls sp_client ai_analyzer files st site :
  ctx sp_client = Some site →
  ∃ new,
    calls (process_files sp_client ai_analyzer files st).2 = calls st ++ new ∧
    count_reads new = length (filter supported files) ∧
    count_chats new + length (process_files sp_client ai_analyzer files st).1.2
      ≤ length (filter supported files).
Proof.
  intros Hctx. unfold process_files. generalize (filter supported files).
  intros l. revert st. induction l as [|file_info rest IH]; intros st; simpl.
  { exists []. by rewrite app_nil_r. }
  destruct (process_file_calls sp_client ai_analyzer file_info st site Hctx)
    as (new1 & Hcalls1 & Hreads1 & Hchats1).
  destruct (process_file _ _ _ [] [] st) as [[records1 errors1] st1].
  rewrite process_loop_frame. destruct (IH st1) as (new2 & Hcalls2 & Hreads2 & Hchats2).
  destruct (process_loop _ _ rest [] [] st1) as [[records2 errors2] st2].
  simpl in *. exists (new1 ++ new2).
  rewrite Hcalls2, Hcalls1, <-app_assoc, count_reads_app, count_chats_app, length_app.
  split; [done|]. split; lia.
Qed.
End PipelineMore.

(* ================================================================== *)
(** * Replies in a code fence *)

Section FenceFacts.
Context {World : Type} `{!Externals World}.
Implicit Types (s t x cur body : string) (c : ascii).

Lemma rev_app_append s t : String.rev_app s t = String.rev s +:+ t.
Proof.
  revert t. induction s as [|a s IH]; intros t; [done|].
  unfold String.rev. simpl. by rewrite !IH, append_assoc.
Qed.

Lemma rev_String a s : String.rev (String a s) = String.rev s +:+ String a "".
Proof. unfold String.rev. simpl. apply rev_app_append. Qed.

(** A text without a backtick, followed by a fence, is one piece and the
    empty piece after the fence. *)
Lemma split_go_closing_fence x cur :
  has_char "`" x = false →
  PyStr.split_go Prompt.fence 0 cur (x +:+ Prompt.fence) = [String.rev cur +:+ x; ""].
Proof.
  revert cur. induction x as [|a x IH]; intros cur Hx.
  - rewrite append_empty_l, append_empty_r. reflexivity.
  - simpl in Hx. apply orb_false_elim in Hx as [Ha Hx].
    apply bool_decide_eq_false in Ha. rewrite append_String.
    cbn [PyStr.split_go]. assert (String.prefix Prompt.fence (String a (x +:+ Prompt.fence)) = false) as ->.
    { unfold Prompt.fence. cbn [String.prefix].
      by destruct (Ascii.ascii_dec "`" a) as [<-|]. }
    rewrite IH by done. by rewrite rev_String, append_assoc.
Qed.

Lemma split_go_found sep cur c s :
  String.prefix sep (String c s) = true →
  PyStr.split_go sep 0 cur (String c s) =
    String.rev cur :: PyStr.split_go sep (String.length sep - 1) "" s.
Proof. intros Hfound. cbn [PyStr.split_go]. by rewrite Hfound. Qed.

Lemma prefix_fence s :
  String.prefix Prompt.fence (String "`" (String "`" (String "`" s))) = true.
Proof. by destruct s. Qed.

Lemma split_fenced x :
  has_char "`" x = false →
  PyStr.split (Prompt.fence +:+ x +:+ Prompt.fence) Prompt.fence = [""; x; ""].
Proof.
  intros Hx. unfold PyStr.split. change (Prompt.fence +:+ x +:+ Prompt.fence)
    with (String "`" (String "`" (String "`" (x +:+ Prompt.fence)))).
  rewrite split_go_found by apply prefix_fence.
  change (String.length Prompt.fence - 1) with 2.
  change (PyStr.split_go Prompt.fence 2 "" (String "`" (String "`" (x +:+ Prompt.fence))))
    with (PyStr.split_go Prompt.fence 0 "" (x +:+ Prompt.fence)).
  by rewrite split_go_closing_fence.
Qed.

Lemma has_char_lstrip c s : has_char c s = false → has_char c (PyStr.lstrip s) = false.
Proof.
  induction s as [|a s IH]; [done|]. simpl. intros Hs.
  destruct (PyStr.isspace a); [|done]. apply IH. by apply orb_false_elim in Hs as [_ ?].
Qed.

Lemma has_char_rstrip c s : has_char c s = false → has_char c (PyStr.rstrip s) = false.
Proof.
  induction s as [|a s IH]; [done|]. simpl. intros [Ha Hs]%orb_false_elim.
  destruct (_ && _); [done|]. simpl. by rewrite Ha, IH.
Qed.

Lemma has_char_strip c s : has_char c s = false → has_char c (PyStr.strip s) = false.
Proof. intros Hs. by apply has_char_rstrip, has_char_lstrip. Qed.

Lemma rstrip_ends_nonspace s c :
  PyStr.isspace c = false → PyStr.rstrip (s +:+ String c "") = s +:+ String c "".
Proof.
  intros Hc. induction s as [|a s IH].
  - rewrite append_empty_l. simpl. by rewrite Hc.
  - rewrite append_String. simpl. rewrite IH. by destruct s.
Qed.

Lemma strip_fenced x :
  PyStr.strip (Prompt.fence +:+ x +:+ Prompt.fence) = Prompt.fence +:+ x +:+ Prompt.fence.
Proof.
  unfold PyStr.strip.
  change (Prompt.fence +:+ x +:+ Prompt.fence)
    with (String "`" (String "`" (String "`" (x +:+ Prompt.fence)))).
  cbn [PyStr.lstrip]. change (PyStr.isspace "`") with false. cbv iota.
  change (String "`" (String "`" (String "`" (x +:+ Prompt.fence))))
    with (Prompt.fence +:+ x +:+ "``" +:+ String "`" "").
  rewrite <-!append_assoc. by apply rstrip_ends_nonspace.
Qed.

Lemma unfence_fenced x :
  has_char "`" x = false →
  unfence (Prompt.fence +:+ x +:+ Prompt.fence) =
    Ok (PyStr.strip (if PyStr.startswith x "json" then PyStr.slice_from x 4 else x)).
Proof.
  intros Hx. unfold unfence.
  assert (PyStr.startswith (Prompt.fence +:+ x +:+ Prompt.fence) Prompt.fence = true)
    as -> by apply prefix_fence.
  by rewrite split_fenced.
Qed.

Lemma slice_from_json body : PyStr.slice_from ("json" +:+ body) 4 = body.
Proof.
  unfold PyStr.slice_from, PyStr.clamp, PyStr.len. rewrite length_append.
  change (4 <? 0)%Z with false. cbv iota. rewrite Z.min_l by (simpl; lia). done.
Qed.

(** A reply in a Markdown code fence is parsed like the bare reply: for a
    text without a backtick, the text in a fence with the tag "json", the
    text in a fence without a tag (when it does not itself start with
    "json") and the text alone all give what [json.loads] gives for the
    text stripped of its white space. *)
Theorem parse_response_fenced body :
  has_char "`" body = false →
  parse_response [Some ("```json" +:+ body +:+ "```")] = json_loads (PyStr.strip body) ∧
  (PyStr.startswith body "json" = false →
   parse_response [Some ("```" +:+ body +:+ "```")] = json_loads (PyStr.strip body)) ∧
  parse_response [Some body] = json_loads (PyStr.strip body).
Proof.
  intros Hbody. unfold parse_response. simpl. repeat split.
  - change ("```json" +:+ body +:+ "```")
      with (Prompt.fence +:+ ("json" +:+ body) +:+ Prompt.fence).
    assert (has_char "`" ("json" +:+ body) = false) as Htagged
      by (by rewrite has_char_append, Hbody).
    assert (PyStr.startswith ("json" +:+ body) "json" = true) as Hstarts
      by (by destruct body).
    rewrite strip_fenced, (unfence_fenced _ Htagged), Hstarts. simpl.
    by rewrite slice_from_json.
  - intros Hjson. change ("```" +:+ body +:+ "```")
      with (Prompt.fence +:+ body +:+ Prompt.fence).
    rewrite strip_fenced, (unfence_fenced _ Hbody), Hjson. done.
  - unfold unfence.
    assert (PyStr.startswith (PyStr.strip body) Prompt.fence = false) as ->; [|done].
    pose proof (has_char_strip "`" body Hbody) as Hstrip.
    destruct (PyStr.strip body) as [|a s]; [done|].
    simpl in Hstrip. apply orb_false_elim in Hstrip as [Ha _].
    apply bool_decide_eq_false in Ha. unfold PyStr.startswith, Prompt.fence.
    cbn [String.prefix]. by destruct (Ascii.ascii_dec "`" a) as [<-|].
Qed.
End FenceFacts.

(* ================================================================== *)
(** * More examples *)

Section MoreExamples.
Import Fixture Demo.

Lemma validated_connect_witness :
  ∃ client,
    connect (SharePointClient_init None) None None = Ok client ∧
    site_url client = site ∧ ctx client = Some site.
Proof.
  destruct (validated_connect (World := World) None) as (client & Hconnect & Hsite & Hctx & _).
  - reflexivity.
  - exists client. split; [done|]. split; [done|]. by rewrite Hctx, Hsite.
Defined.

Lemma validated_ai_client_witness :
  truthy (client_api_key AIAnalyzer_init.1) = true.
Proof. apply validated_ai_client. reflexivity. Defined.

Lemma get_user_input_not_empty_witness :
  get_user_input "Enter SharePoint username/email" None ["  "; " me@example.com "; "x"]
    = (Ok "me@example.com", ["x"]) ∧ "me@example.com" ≠ "".
Proof.
  split; [reflexivity|].
  apply (get_user_input_not_empty "Enter SharePoint username/email" None
           ["  "; " me@example.com "; "x"] "me@example.com" ["x"]).
  reflexivity.
Defined.

Lemma list_files_entries_witness :
  ∃ site listed,
    ctx sp_client = Some site ∧
    sharepoint_folder_files site "Shared Documents" (world (start [])) =
      (Ok listed, world (start [])) ∧
    length listed = 2.
Proof.
  destruct (list_files_entries sp_client "//Shared Documents" (start [])
              [txt_file;
               {| name := "blob.bin"; server_relative_url := "/sites/docs/blob.bin";
                  size := 10; time_created := ""; time_modified := "";
                  extension := ".bin" |}] (start []))
    as (site' & listed & Hctx & Hlisted & _ & Hentries).
  - vm_compute. reflexivity.
  - exists site', listed. split; [done|]. split; [done|].
    by apply Forall2_length in Hentries.
Defined.

Lemma list_files_extensions_witness :
  Forall (λ file_info, lower (extension file_info) = extension file_info)
    [txt_file;
     {| name := "blob.bin"; server_relative_url := "/sites/docs/blob.bin";
        size := 10; time_created := ""; time_modified := ""; extension := ".bin" |}].
Proof.
  eapply Forall_impl.
  - apply (list_files_extensions sp_client "Shared Documents" (start []) _ (start [])).
    vm_compute. reflexivity.
  - intros file_info H. apply H.
Defined.

Lemma list_files_errors_witness :
  ∃ site, ctx sp_client = Some site.
Proof.
  destruct (list_files_errors sp_client "Broken" (start []) (KeyError "Name") (start []))
    as [(Hctx & _)|(site' & Hctx & _)].
  - vm_compute. reflexivity.
  - discriminate Hctx.
  - by exists site'.
Defined.

Lemma listed_extension_ignores_case_witness :
  ∃ file_info,
    file_info_of report_properties = Ok file_info ∧ extension file_info = ".pdf" ∧
    supported file_info.
Proof.
  exists {| name := "REPORT.PDF"; server_relative_url := "/sites/docs/broken.pdf";
            size := 9; time_created := ""; time_modified := ""; extension := ".pdf" |}.
  split; [reflexivity|].
  destruct (listed_extension_ignores_case report_properties
              {| name := "REPORT.PDF"; server_relative_url := "/sites/docs/broken.pdf";
                 size := 9; time_created := ""; time_modified := "";
                 extension := ".pdf" |} "REPORT" "PDF")
    as [Hext Hsupported].
  - reflexivity.
  - reflexivity.
  - reflexivity.
  - reflexivity.
  - by split.
  - split; [exact Hext|]. apply Hsupported. split.
    + apply (bool_decide_unpack _). by vm_compute.
    + apply Z.leb_le. by vm_compute.
Defined.

Lemma create_report_rows_witness :
  ExcelGenerator.create_report ∅ [notes_record] site "Shared Documents"
    "2024-02-01 10:00:00" !! (8, 2) = Some (CellStr "notes.txt").
Proof.
  apply (create_report_rows ∅ [notes_record] site "Shared Documents"
           "2024-02-01 10:00:00" 0 notes_record).
  reflexivity.
Defined.

Lemma create_report_frame_witness :
  ExcelGenerator.create_report ∅ [notes_record] site "Shared Documents"
    "2024-02-01 10:00:00" !! (7, 5) = Some (CellStr "File Size (KB)") ∧
  ExcelGenerator.create_report ∅ [notes_record] site "Shared Documents"
    "2024-02-01 10:00:00" !! (9, 1) = None.
Proof.
  destruct (create_report_frame ∅ [notes_record] site "Shared Documents"
              "2024-02-01 10:00:00") as (_ & _ & _ & _ & _ & Hheaders & Hframe).
  split.
  - apply (Hheaders 4). reflexivity.
  - rewrite Hframe; [done|simpl; lia..].
Defined.

Lemma add_error_sheet_layout_witness :
  ∃ title sheet,
    wb (add_error_sheet (ExcelGenerator_init "report.xlsx") [one_error]) =
      [(WS_TITLE, ∅); (title, sheet)] ∧
    sheet !! (4, 1) = Some (CellStr "gone.txt").
Proof.
  destruct (add_error_sheet_layout (World := World)
              (ExcelGenerator_init "report.xlsx") [one_error]) as [_ Hsome].
  destruct Hsome as (title & sheet & Hwb & _ & _ & _ & Hrows & _); [done|].
  exists title, sheet. split; [exact Hwb|]. by apply (Hrows 0 one_error).
Defined.

Lemma process_files_blank_text_witness :
  process_files sp_client ai_analyzer ([] ++ blank_file :: []) blank_start =
    ([] ++ [record_of blank_file (analyze_file_metadata ai_analyzer "blank.txt" ".txt")],
     [] ++ [],
     State (world blank_start) [CallReadFile site "/sites/docs/blank.txt"]).
Proof.
  destruct (process_files_blank_text sp_client ai_analyzer [] blank_file []
              blank_start [] [] blank_start "  "
              (State (world blank_start) [CallReadFile site "/sites/docs/blank.txt"]))
    as (records2 & errors2 & st2 & Hafter & Hall).
  - apply (bool_decide_unpack _). by vm_compute.
  - reflexivity.
  - vm_compute. reflexivity.
  - reflexivity.
  - rewrite Hall. vm_compute in Hafter. by injection Hafter as <- <- <-.
Defined.

Lemma process_files_calls_witness :
  ∃ new,
    calls (process_files sp_client ai_analyzer [txt_file; bin_file; missing_file]
             (start [good_reply])).2 = [] ++ new ∧
    count_reads new = 2.
Proof.
  destruct (process_files_calls sp_client ai_analyzer [txt_file; bin_file; missing_file]
              (start [good_reply]) site) as (new & Hcalls & Hreads & _).
  - reflexivity.
  - exists new. split; [exact Hcalls|]. rewrite Hreads. by vm_compute.
Defined.

Lemma parse_response_fenced_witness :
  parse_response [Some ("```json" +:+ full_reply +:+ "```")] = Ok full_object.
Proof.
  destruct (parse_response_fenced (World := World) full_reply) as (-> & _).
  - by vm_compute.
  - by vm_compute.
Defined.

Lemma main_outcomes_witness :
  ∃ o p', main (Process (start [good_reply]) ["Shared Documents"; "unread"]) = (o, p') ∧
          (o = Returned tt ∨ o = Exited 0 ∨ o = Exited 1) ∧ stdin p' = ["unread"].
Proof.
  destruct (main (Process (start [good_reply]) ["Shared Documents"; "unread"]))
    as [o p'] eqn:Hmain.
  exists o, p'. split; [done|].
  destruct (main_outcomes _ o p' Hmain) as (Ho & _ & _). split; [exact Ho|].
  vm_compute in Hmain. by injection Hmain as <- <-.
Defined.

Lemma main_returns_after_saving_witness :
  ∃ folder_path st0 files st1,
    list_files connected_client folder_path st0 = (Ok files, st1) ∧ files ≠ [].
Proof.
  destruct (main_returns_after_saving
              (Process (start [good_reply]) ["Shared Documents"])
              (Process (State {| store := the_store; replies := [] |}
                          (calls (process_files sp_client ai_analyzer [txt_file]
                                    (start [good_reply])).2)) []))
    as (folder_path & st0 & files & st1 & analysis_results & errors & st2 & now & w &
        _ & _ & Hfiles & Hne & _).
  - vm_compute. reflexivity.
  - by exists folder_path, st0, files, st1.
Defined.


Lemma main_nothing_supported_witness :
  main (Process (start []) ["Binaries"]) = (Exited 1, Process (start []) []).
Proof.
  apply (main_nothing_supported (Process (start []) ["Binaries"]) "Binaries" []
           (start [])
           [{| name := "blob.bin"; server_relative_url := "/sites/docs/blob.bin";
               size := 10; time_created := ""; time_modified := "";
               extension := ".bin" |}] (start [])).
  - reflexivity.
  - reflexivity.
  - reflexivity.
  - vm_compute. reflexivity.
  - done.
  - constructor; [|constructor]. intros [Hext _].
    apply list_elem_of_In in Hext. simpl in Hext. by intuition discriminate.
Defined.
End MoreExamples.
